(** * Adaptive Smart Replay (ASR): metrics collection and controller

    A shallow embedding of [src/backend/storage/adaptive_sr.c] and of the
    configuration record of [src/include/storage/adaptive_sr.h], followed by
    the properties of the replay-budget controller.

    Modelling conventions.
    - The two file-scope objects [asr_config] and [asr_metrics], the
      shutdown flag and the controller thread handle form one explicit
      state record that every API function transforms.
    - [uint64_t] counters are integers with the wrap-around modulo 2^64
      written out.  [int] values are integers; a signed operation whose
      mathematical result leaves the 32-bit range, or a conversion from
      [double] that does, is undefined in C and yields [None].
    - [double] values are exact rationals: rounding, infinities and NaN of
      IEEE-754 arithmetic are outside this model.  A quotient by zero
      has no meaning here; no property below depends on the value of
      one.  What is stated of stored [double]s is therefore either an
      order property, which correctly rounded arithmetic keeps, or the
      equality of a stored value with the expression the source
      evaluates.  Where the rounding itself matters, the smoother and the
      step limit are evaluated once more over binary64 numbers, and where
      a NaN matters, the argument of [budget_from_aggressiveness] is
      widened to the special values.
    - [time(NULL)] is an argument of the controller tick.
    - [ereport] log lines carry no state and are left out.
    - The state-passing functions run one call at a time and leave the
      locks out; the section on synchronisation adds the metrics mutex
      and the atomic accesses of the hot-path calls, and the section on
      the configuration lock adds the read-write lock of [asr_config]. *)

From Stdlib Require Import PrimFloat.
From Stdlib Require Import ZArith QArith Qabs Qround Lia Lqa List Bool.
Import ListNotations.

Open Scope Z_scope.

(* Decimal literals of the source are read as the nearest binary64 number. *)
Set Warnings "-inexact-float".

(** ** Machine numbers *)

Module Num.

(** A [double], as an exact rational. *)
Abbreviation double := Q (only parsing).

Definition UINT64_MODULUS : Z := 2 ^ 64.
Definition INT_MIN : Z := - 2 ^ 31.
Definition INT_MAX : Z := 2 ^ 31 - 1.

(** [atomic_fetch_add] on a [uint64_t] and unsigned subtraction. *)
Definition uint64_add (a b : Z) : Z := (a + b) mod UINT64_MODULUS.
Definition uint64_sub (a b : Z) : Z := (a - b) mod UINT64_MODULUS.

Definition in_int_range (z : Z) : bool := (INT_MIN <=? z) && (z <=? INT_MAX).

(** A mathematical result becomes an [int] only inside the range. *)
Definition to_int (z : Z) : option Z :=
  if in_int_range z then Some z else None.

Definition int_sub (a b : Z) : option Z := to_int (a - b).
Definition int_neg (a : Z) : option Z := to_int (- a).

(** [(double)x] for an integer [x]. *)
Definition double_of_Z (z : Z) : double := inject_Z z.

(** [(int)floor(x)]. *)
Definition int_of_floor (x : double) : option Z := to_int (Qfloor x).

(** The comparisons [<=] and [<] and [>] on doubles, as booleans. *)
Definition dle (x y : double) : bool := Qle_bool x y.
Definition dlt (x y : double) : bool := negb (Qle_bool y x).
Definition dgt (x y : double) : bool := dlt y x.

Definition fabs (x : double) : double := Qabs x.

End Num.
Import Num.

(** Sequencing of fallible steps. *)
Definition bind {A B : Type} (o : option A) (k : A -> option B) : option B :=
  match o with
  | Some a => k a
  | None => None
  end.

Notation "x <- e ;; k" := (bind e (fun x => k))
  (at level 61, e at next level, right associativity).

(** ** Data model *)

(** [ASRConfig] of adaptive_sr.h. *)
Record ASRConfig : Type := mkASRConfig {
  QSTAR : double;
  RSTAR : double;
  WSTAR : double;
  BMIN : Z;
  BMAX : Z;
  WQ : double;
  WM : double;
  WW : double;
  HYST : Z;
  MAX_STEP : double;
  enable_adaptive_sr : bool;
  verbose_metrics : bool
}.

(** [ASRMetrics] of adaptive_sr.h, the snapshot handed to observers. *)
Record ASRMetrics : Type := mkASRMetrics {
  replay_queue_length : double;
  hot_miss_rate : double;
  wal_ingest_bps : double;
  last_update : Z;
  aggressiveness : double;
  replay_budget : Z
}.

(** [ASRMetricsInternal] of adaptive_sr.c, without its mutex. *)
Record ASRMetricsInternal : Type := mkASRMetricsInternal {
  replay_tasks_count : Z;
  hot_misses : Z;
  wal_bytes_received : Z;
  queue_ewma : double;
  miss_rate_ewma : double;
  wal_bps_ewma : double;
  current_budget : Z;
  current_aggressiveness : double;
  last_total_misses : Z;
  last_total_tasks : Z;
  last_wal_bytes : Z;
  last_measurement : Z
}.

(** The file-scope state of adaptive_sr.c.  [asr_controller_tid] records
    whether a controller thread handle is stored ([tid != 0]). *)
Record ASRState : Type := mkASRState {
  asr_config : ASRConfig;
  asr_metrics : ASRMetricsInternal;
  asr_shutdown_requested : bool;
  asr_controller_tid : bool
}.

(** Field assignments [asr_metrics.f = v]. *)

Definition set_replay_tasks_count (v : Z) (m : ASRMetricsInternal) :
  ASRMetricsInternal :=
  mkASRMetricsInternal
    v (hot_misses m) (wal_bytes_received m) (queue_ewma m)
    (miss_rate_ewma m) (wal_bps_ewma m) (current_budget m)
    (current_aggressiveness m) (last_total_misses m) (last_total_tasks m)
    (last_wal_bytes m) (last_measurement m).

Definition set_hot_misses (v : Z) (m : ASRMetricsInternal) :
  ASRMetricsInternal :=
  mkASRMetricsInternal
    (replay_tasks_count m) v (wal_bytes_received m) (queue_ewma m)
    (miss_rate_ewma m) (wal_bps_ewma m) (current_budget m)
    (current_aggressiveness m) (last_total_misses m) (last_total_tasks m)
    (last_wal_bytes m) (last_measurement m).

Definition set_wal_bytes_received (v : Z) (m : ASRMetricsInternal) :
  ASRMetricsInternal :=
  mkASRMetricsInternal
    (replay_tasks_count m) (hot_misses m) v (queue_ewma m)
    (miss_rate_ewma m) (wal_bps_ewma m) (current_budget m)
    (current_aggressiveness m) (last_total_misses m) (last_total_tasks m)
    (last_wal_bytes m) (last_measurement m).

Definition set_queue_ewma (v : double) (m : ASRMetricsInternal) :
  ASRMetricsInternal :=
  mkASRMetricsInternal
    (replay_tasks_count m) (hot_misses m) (wal_bytes_received m) v
    (miss_rate_ewma m) (wal_bps_ewma m) (current_budget m)
    (current_aggressiveness m) (last_total_misses m) (last_total_tasks m)
    (last_wal_bytes m) (last_measurement m).

Definition set_miss_rate_ewma (v : double) (m : ASRMetricsInternal) :
  ASRMetricsInternal :=
  mkASRMetricsInternal
    (replay_tasks_count m) (hot_misses m) (wal_bytes_received m)
    (queue_ewma m) v (wal_bps_ewma m) (current_budget m)
    (current_aggressiveness m) (last_total_misses m) (last_total_tasks m)
    (last_wal_bytes m) (last_measurement m).

Definition set_wal_bps_ewma (v : double) (m : ASRMetricsInternal) :
  ASRMetricsInternal :=
  mkASRMetricsInternal
    (replay_tasks_count m) (hot_misses m) (wal_bytes_received m)
    (queue_ewma m) (miss_rate_ewma m) v (current_budget m)
    (current_aggressiveness m) (last_total_misses m) (last_total_tasks m)
    (last_wal_bytes m) (last_measurement m).

Definition set_current_budget (v : Z) (m : ASRMetricsInternal) :
  ASRMetricsInternal :=
  mkASRMetricsInternal
    (replay_tasks_count m) (hot_misses m) (wal_bytes_received m)
    (queue_ewma m) (miss_rate_ewma m) (wal_bps_ewma m) v
    (current_aggressiveness m) (last_total_misses m) (last_total_tasks m)
    (last_wal_bytes m) (last_measurement m).

Definition set_current_aggressiveness (v : double) (m : ASRMetricsInternal) :
  ASRMetricsInternal :=
  mkASRMetricsInternal
    (replay_tasks_count m) (hot_misses m) (wal_bytes_received m)
    (queue_ewma m) (miss_rate_ewma m) (wal_bps_ewma m) (current_budget m) v
    (last_total_misses m) (last_total_tasks m) (last_wal_bytes m)
    (last_measurement m).

Definition set_last_total_misses (v : Z) (m : ASRMetricsInternal) :
  ASRMetricsInternal :=
  mkASRMetricsInternal
    (replay_tasks_count m) (hot_misses m) (wal_bytes_received m)
    (queue_ewma m) (miss_rate_ewma m) (wal_bps_ewma m) (current_budget m)
    (current_aggressiveness m) v (last_total_tasks m) (last_wal_bytes m)
    (last_measurement m).

Definition set_last_total_tasks (v : Z) (m : ASRMetricsInternal) :
  ASRMetricsInternal :=
  mkASRMetricsInternal
    (replay_tasks_count m) (hot_misses m) (wal_bytes_received m)
    (queue_ewma m) (miss_rate_ewma m) (wal_bps_ewma m) (current_budget m)
    (current_aggressiveness m) (last_total_misses m) v (last_wal_bytes m)
    (last_measurement m).

Definition set_last_wal_bytes (v : Z) (m : ASRMetricsInternal) :
  ASRMetricsInternal :=
  mkASRMetricsInternal
    (replay_tasks_count m) (hot_misses m) (wal_bytes_received m)
    (queue_ewma m) (miss_rate_ewma m) (wal_bps_ewma m) (current_budget m)
    (current_aggressiveness m) (last_total_misses m) (last_total_tasks m) v
    (last_measurement m).

Definition set_last_measurement (v : Z) (m : ASRMetricsInternal) :
  ASRMetricsInternal :=
  mkASRMetricsInternal
    (replay_tasks_count m) (hot_misses m) (wal_bytes_received m)
    (queue_ewma m) (miss_rate_ewma m) (wal_bps_ewma m) (current_budget m)
    (current_aggressiveness m) (last_total_misses m) (last_total_tasks m)
    (last_wal_bytes m) v.

Definition set_asr_metrics (m : ASRMetricsInternal) (s : ASRState) : ASRState :=
  mkASRState (asr_config s) m (asr_shutdown_requested s)
    (asr_controller_tid s).

Definition set_asr_config (c : ASRConfig) (s : ASRState) : ASRState :=
  mkASRState c (asr_metrics s) (asr_shutdown_requested s)
    (asr_controller_tid s).

Definition set_asr_shutdown_requested (b : bool) (s : ASRState) : ASRState :=
  mkASRState (asr_config s) (asr_metrics s) b (asr_controller_tid s).

Definition set_asr_controller_tid (b : bool) (s : ASRState) : ASRState :=
  mkASRState (asr_config s) (asr_metrics s) (asr_shutdown_requested s) b.

(** ** Static data *)

(** [asr_default_config]. *)
Definition asr_default_config : ASRConfig := {|
  QSTAR := 100.0%Q;
  RSTAR := 0.05%Q;
  WSTAR := double_of_Z (10 * 1024 * 1024);
  BMIN := 10;
  BMAX := 2000;
  WQ := 0.3%Q;
  WM := 0.6%Q;
  WW := 0.1%Q;
  HYST := 20;
  MAX_STEP := 0.2%Q;
  enable_adaptive_sr := false;
  verbose_metrics := false
|}.

(** [asr_config] has static storage and no initialiser: all fields zero. *)
Definition asr_config_static : ASRConfig := {|
  QSTAR := 0%Q; RSTAR := 0%Q; WSTAR := 0%Q; BMIN := 0; BMAX := 0;
  WQ := 0%Q; WM := 0%Q; WW := 0%Q; HYST := 0; MAX_STEP := 0%Q;
  enable_adaptive_sr := false; verbose_metrics := false
|}.

(** The initialiser of [asr_metrics]. *)
Definition asr_metrics_static : ASRMetricsInternal := {|
  replay_tasks_count := 0;
  hot_misses := 0;
  wal_bytes_received := 0;
  queue_ewma := 0.0%Q;
  miss_rate_ewma := 0.0%Q;
  wal_bps_ewma := 0.0%Q;
  current_budget := 100;
  current_aggressiveness := 0.0%Q;
  last_total_misses := 0;
  last_total_tasks := 0;
  last_wal_bytes := 0;
  last_measurement := 0
|}.

(** The state of the module when the process starts. *)
Definition asr_static : ASRState := {|
  asr_config := asr_config_static;
  asr_metrics := asr_metrics_static;
  asr_shutdown_requested := false;
  asr_controller_tid := false
|}.

(** ** Helpers of the controller *)

Definition EWMA_ALPHA : double := 0.3%Q.

Definition ewma_update (old_val new_val : double) : double :=
  ((EWMA_ALPHA * new_val) + ((1.0 - EWMA_ALPHA) * old_val))%Q.

Definition compute_pressure (raw expected : double) : double :=
  if dle raw expected then 0.0%Q
  else
    let e := ((raw / expected) - 1.0)%Q in
    let e := if dgt e 1.0%Q then 1.0%Q else e in
    e.

Definition budget_from_aggressiveness (A : double) (cfg : ASRConfig) :
  option Z :=
  let A := if dlt A 0.0%Q then 0.0%Q else A in
  let A := if dgt A 1.0%Q then 1.0%Q else A in
  span <- int_sub (BMAX cfg) (BMIN cfg) ;;
  int_of_floor (double_of_Z (BMIN cfg) + A * double_of_Z span)%Q.

(** ** Metrics ingest *)

(** The cast [(uint64_t)x] of a signed or [size_t] argument. *)
Definition uint64_of_Z (x : Z) : Z := x mod UINT64_MODULUS.

Definition ASR_RecordReplayTask (count : Z) (s : ASRState) : ASRState :=
  if negb (enable_adaptive_sr (asr_config s)) || (count <=? 0) then s
  else
    let m := asr_metrics s in
    set_asr_metrics
      (set_replay_tasks_count
         (uint64_add (replay_tasks_count m) (uint64_of_Z count)) m) s.

Definition ASR_RecordHotMiss (s : ASRState) : ASRState :=
  if negb (enable_adaptive_sr (asr_config s)) then s
  else
    let m := asr_metrics s in
    set_asr_metrics (set_hot_misses (uint64_add (hot_misses m) 1) m) s.

Definition ASR_RecordWalIngest (bytes : Z) (s : ASRState) : ASRState :=
  if negb (enable_adaptive_sr (asr_config s)) || (bytes =? 0) then s
  else
    let m := asr_metrics s in
    set_asr_metrics
      (set_wal_bytes_received
         (uint64_add (wal_bytes_received m) (uint64_of_Z bytes)) m) s.

(** ** Budget cell and snapshot *)

Definition ASR_GetCurrentBudget (s : ASRState) : Z :=
  current_budget (asr_metrics s).

Definition ASR_SetBudget (budget : Z) (s : ASRState) : ASRState :=
  set_asr_metrics (set_current_budget budget (asr_metrics s)) s.

Definition ASR_ReadMetrics (s : ASRState) : ASRMetrics :=
  let m := asr_metrics s in
  {| replay_queue_length := queue_ewma m;
     hot_miss_rate := miss_rate_ewma m;
     wal_ingest_bps := wal_bps_ewma m;
     aggressiveness := current_aggressiveness m;
     replay_budget := current_budget m;
     last_update := last_measurement m |}.

(** ** The controller tick *)

(** [asr_update_smoothed_metrics], with the clock reading [now].  The
    assignments to [asr_metrics] are kept in the order of the source. *)
Definition asr_update_smoothed_metrics (now : Z) (s : ASRState) :
  option ASRState :=
  let cfg := asr_config s in
  let m := asr_metrics s in
  (* Time since last measurement *)
  let dt :=
    if last_measurement m =? 0 then 1.0%Q
    else double_of_Z (now - last_measurement m) in
  let dt := if dlt dt 0.1%Q then 0.1%Q else dt in
  (* Read atomic counters *)
  let total_tasks := replay_tasks_count m in
  let total_misses := hot_misses m in
  let total_wal_bytes := wal_bytes_received m in
  (* Replay queue estimate *)
  let tasks_delta := uint64_sub total_tasks (last_total_tasks m) in
  let new_queue :=
    if dgt dt 0%Q then (double_of_Z tasks_delta / dt)%Q else 0.0%Q in
  let m := set_queue_ewma (ewma_update (queue_ewma m) new_queue) m in
  let m := set_last_total_tasks total_tasks m in
  (* Hot miss rate *)
  let misses_delta := uint64_sub total_misses (last_total_misses m) in
  let new_miss_rate :=
    if last_total_tasks m <? total_tasks
    then (double_of_Z misses_delta / double_of_Z (uint64_add tasks_delta 1))%Q
    else 0.0%Q in
  let m :=
    set_miss_rate_ewma (ewma_update (miss_rate_ewma m) new_miss_rate) m in
  let m := set_last_total_misses total_misses m in
  (* WAL ingest rate *)
  let wal_delta := uint64_sub total_wal_bytes (last_wal_bytes m) in
  let new_wal_bps :=
    if dgt dt 0%Q then (double_of_Z wal_delta / dt)%Q else 0.0%Q in
  let m := set_wal_bps_ewma (ewma_update (wal_bps_ewma m) new_wal_bps) m in
  let m := set_last_wal_bytes total_wal_bytes m in
  (* Pressures *)
  let e_q := compute_pressure (queue_ewma m) (QSTAR cfg) in
  let e_m := compute_pressure (miss_rate_ewma m) (RSTAR cfg) in
  let e_w := compute_pressure (wal_bps_ewma m) (WSTAR cfg) in
  (* Weighted aggressiveness *)
  let agg := (WQ cfg * e_q + WM cfg * e_m + WW cfg * e_w)%Q in
  let agg := if dgt agg 1.0%Q then 1.0%Q else agg in
  let agg := if dlt agg 0.0%Q then 0.0%Q else agg in
  (* Step limit *)
  let delta_a := (agg - current_aggressiveness m)%Q in
  let agg :=
    if dgt (fabs delta_a) (MAX_STEP cfg) then
      if dgt delta_a 0%Q
      then (current_aggressiveness m + MAX_STEP cfg)%Q
      else (current_aggressiveness m - MAX_STEP cfg)%Q
    else agg in
  let m := set_current_aggressiveness agg m in
  (* Map aggressiveness to budget *)
  new_budget <- budget_from_aggressiveness agg cfg ;;
  let last_budget := current_budget m in
  (* Hysteresis *)
  delta <- int_sub new_budget last_budget ;;
  delta <- (if delta <? 0 then int_neg delta else Some delta) ;;
  let new_budget := if delta <? HYST cfg then last_budget else new_budget in
  let m := set_current_budget new_budget m in
  let m := set_last_measurement now m in
  Some (set_asr_metrics m s).

(** ** Lifecycle and configuration *)

Definition ASR_Init (s : ASRState) : ASRState :=
  let s := set_asr_config asr_default_config s in
  set_asr_metrics
    (set_current_budget (BMIN (asr_config s)) (asr_metrics s)) s.

(** [pthread_create] succeeds or not: [spawned].  After a failed
    [pthread_create] the contents of the handle are unspecified; the
    function below keeps the old handle in that case, and nothing is
    stated below of the handle after a failed creation while enabled. *)
Definition ASR_StartController (spawned : bool) (s : ASRState) : ASRState :=
  if negb (enable_adaptive_sr (asr_config s)) then s
  else
    let s := set_asr_shutdown_requested false s in
    if spawned then set_asr_controller_tid true s else s.

(** One cycle of [asr_controller_main]: the loop test, then the tick.
    [None] when the loop has ended or the tick is undefined. *)
Definition asr_controller_cycle (now : Z) (s : ASRState) : option ASRState :=
  if asr_shutdown_requested s then None
  else asr_update_smoothed_metrics now s.

Definition ASR_Shutdown (s : ASRState) : ASRState :=
  let s := set_asr_shutdown_requested true s in
  if asr_controller_tid s then set_asr_controller_tid false s else s.

(** What the pointer returned by [ASR_GetConfig] reads.  The read lock the
    call takes, and keeps, is in the section on the configuration
    lock. *)
Definition ASR_GetConfig (s : ASRState) : ASRConfig := asr_config s.

(** [new_config] is a pointer: [None] is [NULL]. *)
Definition ASR_UpdateConfig (new_config : option ASRConfig) (s : ASRState) :
  ASRState :=
  match new_config with
  | None => s
  | Some c => set_asr_config c s
  end.

(** ** The phases of the tick

    The same computation as [asr_update_smoothed_metrics], cut at the
    comments of the source, so that statements can name the intermediate
    values.  [tick_phases] below proves the two presentations equal. *)

(** [dt], lines 260-264. *)
Definition tick_dt (now : Z) (m : ASRMetricsInternal) : double :=
  let dt :=
    if last_measurement m =? 0 then 1.0%Q
    else double_of_Z (now - last_measurement m) in
  if dlt dt 0.1%Q then 0.1%Q else dt.

(** The three raw samples fed to [ewma_update], lines 275-302. *)
Definition tick_new_queue (now : Z) (m : ASRMetricsInternal) : double :=
  let dt := tick_dt now m in
  let tasks_delta := uint64_sub (replay_tasks_count m) (last_total_tasks m) in
  if dgt dt 0%Q then (double_of_Z tasks_delta / dt)%Q else 0.0%Q.

Definition tick_new_miss_rate (m : ASRMetricsInternal) : double :=
  let total_tasks := replay_tasks_count m in
  let tasks_delta := uint64_sub total_tasks (last_total_tasks m) in
  let misses_delta := uint64_sub (hot_misses m) (last_total_misses m) in
  (* [last_total_tasks] was assigned [total_tasks] on line 278 *)
  let m := set_last_total_tasks total_tasks m in
  if last_total_tasks m <? total_tasks
  then (double_of_Z misses_delta / double_of_Z (uint64_add tasks_delta 1))%Q
  else 0.0%Q.

Definition tick_new_wal_bps (now : Z) (m : ASRMetricsInternal) : double :=
  let dt := tick_dt now m in
  let wal_delta := uint64_sub (wal_bytes_received m) (last_wal_bytes m) in
  if dgt dt 0%Q then (double_of_Z wal_delta / dt)%Q else 0.0%Q.

(** Lines 260-303: the smoother. *)
Definition tick_smooth (now : Z) (m : ASRMetricsInternal) :
  ASRMetricsInternal :=
  let m1 :=
    set_last_total_tasks (replay_tasks_count m)
      (set_queue_ewma (ewma_update (queue_ewma m) (tick_new_queue now m)) m) in
  let m2 :=
    set_last_total_misses (hot_misses m)
      (set_miss_rate_ewma
         (ewma_update (miss_rate_ewma m) (tick_new_miss_rate m)) m1) in
  set_last_wal_bytes (wal_bytes_received m)
    (set_wal_bps_ewma
       (ewma_update (wal_bps_ewma m) (tick_new_wal_bps now m)) m2).

(** Lines 308-317: the clamped weighted sum of the three pressures. *)
Definition tick_weighted_aggressiveness (cfg : ASRConfig)
  (m : ASRMetricsInternal) : double :=
  let e_q := compute_pressure (queue_ewma m) (QSTAR cfg) in
  let e_m := compute_pressure (miss_rate_ewma m) (RSTAR cfg) in
  let e_w := compute_pressure (wal_bps_ewma m) (WSTAR cfg) in
  let agg := (WQ cfg * e_q + WM cfg * e_m + WW cfg * e_w)%Q in
  let agg := if dgt agg 1.0%Q then 1.0%Q else agg in
  if dlt agg 0.0%Q then 0.0%Q else agg.

(** Lines 320-327: the step limit against the stored aggressiveness. *)
Definition tick_step_limit (cfg : ASRConfig) (prev agg : double) : double :=
  let delta_a := (agg - prev)%Q in
  if dgt (fabs delta_a) (MAX_STEP cfg) then
    if dgt delta_a 0%Q
    then (prev + MAX_STEP cfg)%Q
    else (prev - MAX_STEP cfg)%Q
  else agg.

(** Lines 337-340: the hysteresis on the budget. *)
Definition tick_hysteresis (cfg : ASRConfig) (last_budget new_budget : Z) :
  option Z :=
  delta <- int_sub new_budget last_budget ;;
  delta <- (if delta <? 0 then int_neg delta else Some delta) ;;
  Some (if delta <? HYST cfg then last_budget else new_budget).

(** ** Runs *)

(** What happens to the module between two observations: an ingest call of
    a collaborator or a tick of the controller at clock reading [now]. *)
Inductive event : Type :=
| EvRecordReplayTask (count : Z)
| EvRecordHotMiss
| EvRecordWalIngest (bytes : Z)
| EvTick (now : Z).

Definition apply_event (e : event) (s : ASRState) : option ASRState :=
  match e with
  | EvRecordReplayTask count => Some (ASR_RecordReplayTask count s)
  | EvRecordHotMiss => Some (ASR_RecordHotMiss s)
  | EvRecordWalIngest bytes => Some (ASR_RecordWalIngest bytes s)
  | EvTick now => asr_update_smoothed_metrics now s
  end.

Fixpoint run (evs : list event) (s : ASRState) : option ASRState :=
  match evs with
  | [] => Some s
  | e :: evs' => s' <- apply_event e s ;; run evs' s'
  end.

(** The moves of the running system that do not touch the configuration:
    ingest calls, [ASR_StartController], and a cycle of the controller
    thread, which exists only while a thread handle is stored. *)
Inductive asr_step : ASRState -> ASRState -> Prop :=
| step_record_replay_task (count : Z) (s : ASRState) :
    asr_step s (ASR_RecordReplayTask count s)
| step_record_hot_miss (s : ASRState) :
    asr_step s (ASR_RecordHotMiss s)
| step_record_wal_ingest (bytes : Z) (s : ASRState) :
    asr_step s (ASR_RecordWalIngest bytes s)
| step_start_controller (spawned : bool) (s : ASRState) :
    asr_step s (ASR_StartController spawned s)
| step_controller_cycle (now : Z) (s s' : ASRState) :
    asr_controller_tid s = true ->
    asr_controller_cycle now s = Some s' ->
    asr_step s s'.

Inductive asr_steps : ASRState -> ASRState -> Prop :=
| steps_refl (s : ASRState) : asr_steps s s
| steps_cons (s1 s2 s3 : ASRState) :
    asr_step s1 s2 -> asr_steps s2 s3 -> asr_steps s1 s3.

(** ** Scenarios *)

(** The default configuration with the master switch on. *)
Definition asr_enabled_config : ASRConfig :=
  mkASRConfig (QSTAR asr_default_config) (RSTAR asr_default_config)
    (WSTAR asr_default_config) (BMIN asr_default_config)
    (BMAX asr_default_config) (WQ asr_default_config)
    (WM asr_default_config) (WW asr_default_config)
    (HYST asr_default_config) (MAX_STEP asr_default_config)
    true false.

(** Start of the process, then [ASR_Init], then the switch turned on. *)
Definition asr_enabled : ASRState :=
  ASR_UpdateConfig (Some asr_enabled_config) (ASR_Init asr_static).

(** One round of the hot-miss scenario: 50 calls [ASR_RecordReplayTask(1)],
    25 calls [ASR_RecordHotMiss()], then a tick. *)
Definition hot_miss_load (s : ASRState) : ASRState :=
  Nat.iter 25 ASR_RecordHotMiss (Nat.iter 50 (ASR_RecordReplayTask 1) s).

Definition hot_miss_round (now : Z) (s : ASRState) : option ASRState :=
  asr_update_smoothed_metrics now (hot_miss_load s).

(** [k] rounds, one second apart. *)
Fixpoint hot_miss_rounds (k : nat) (s : ASRState) : option ASRState :=
  match k with
  | O => Some s
  | S k' => s' <- hot_miss_rounds k' s ;; hot_miss_round (Z.of_nat k) s'
  end.

(** A controller started while enabled, 40 MiB of WAL recorded, then the
    configuration switched back to the (disabled) default. *)
Definition asr_disabled_while_running : ASRState :=
  ASR_UpdateConfig (Some asr_default_config)
    (ASR_RecordWalIngest (40 * 1024 * 1024)
       (ASR_StartController true asr_enabled)).

(** A configuration that breaks the documented constraints: [BMAX <= BMIN],
    a negative weight. *)
Definition asr_malformed_config : ASRConfig :=
  mkASRConfig 100.0%Q 0.05%Q (double_of_Z (10 * 1024 * 1024)) 10 5
    (- 0.3)%Q 0.6%Q 0.1%Q 20 0.2%Q true false.

(** The update rule of the specification, with the weight [alpha] on the
    new sample as a parameter. *)
Definition spec_ewma (alpha x_ewma x_raw : double) : double :=
  (alpha * x_raw + (1 - alpha) * x_ewma)%Q.


(** The aggressiveness a tick stores: lines 308-328 on the smoothed
    metrics. *)
Definition tick_aggressiveness (now : Z) (s : ASRState) : double :=
  let m1 := tick_smooth now (asr_metrics s) in
  tick_step_limit (asr_config s) (current_aggressiveness m1)
    (tick_weighted_aggressiveness (asr_config s) m1).


(** ** Invariants *)

(** The budget bounds of a configuration are usable: both are [int]s,
    ordered, and their difference is an [int] too. *)
Definition cfg_bounds_ok (cfg : ASRConfig) : Prop :=
  INT_MIN <= BMIN cfg /\ BMIN cfg <= BMAX cfg /\ BMAX cfg <= INT_MAX /\
  BMAX cfg - BMIN cfg <= INT_MAX.

Definition budget_in_bounds (s : ASRState) : Prop :=
  BMIN (asr_config s) <= ASR_GetCurrentBudget s <= BMAX (asr_config s).

(** The part of [asr_metrics] that only the controller writes. *)
Definition controller_fields (s : ASRState) :=
  let m := asr_metrics s in
  (queue_ewma m, miss_rate_ewma m, wal_bps_ewma m,
   current_budget m, current_aggressiveness m,
   last_total_misses m, last_total_tasks m, last_wal_bytes m,
   last_measurement m).

(** An operation that leaves the configuration and the controller's
    fields alone. *)
Definition ingest_frame (f : ASRState -> ASRState) : Prop :=
  forall s : ASRState,
    asr_config (f s) = asr_config s /\
    controller_fields (f s) = controller_fields s.

(** ** Synchronisation of the hot-path calls *)

Inductive thread : Type :=
| ControllerThread
| CallerThread.

Inductive counter : Type :=
| ReplayTasksCount
| HotMisses
| WalBytesReceived.

(** The accesses to shared objects a call performs, in program order:
    the plain read of [asr_config.enable_adaptive_sr], [atomic_fetch_add]
    on a counter, [pthread_mutex_lock] and [pthread_mutex_unlock] on
    [asr_metrics.metrics_lock], and the plain read and write of
    [asr_metrics.current_budget]. *)
Inductive action : Type :=
| LoadEnableFlag
| AtomicFetchAdd (c : counter) (n : Z)
| MutexLock
| LoadBudget
| StoreBudget (budget : Z)
| MutexUnlock.

(** The shared memory together with the owner of
    [asr_metrics.metrics_lock], if it is held. *)
Record world : Type := mkWorld {
  memory : ASRState;
  metrics_lock : option thread
}.

Definition fetch_add (c : counter) (n : Z) (s : ASRState) : ASRState :=
  let m := asr_metrics s in
  match c with
  | ReplayTasksCount =>
      set_asr_metrics
        (set_replay_tasks_count (uint64_add (replay_tasks_count m) n) m) s
  | HotMisses =>
      set_asr_metrics (set_hot_misses (uint64_add (hot_misses m) n) m) s
  | WalBytesReceived =>
      set_asr_metrics
        (set_wal_bytes_received (uint64_add (wal_bytes_received m) n) m) s
  end.

(** One action of thread [t]; the second component holds the value the
    call has loaded.  [None]: the thread cannot proceed and waits. *)
Definition exec_action (t : thread) (a : action) (st : world * Z) :
  option (world * Z) :=
  let (w, loaded) := st in
  match a with
  | LoadEnableFlag => Some (w, loaded)
  | AtomicFetchAdd c n =>
      Some (mkWorld (fetch_add c n (memory w)) (metrics_lock w), loaded)
  | MutexLock =>
      match metrics_lock w with
      | None => Some (mkWorld (memory w) (Some t), loaded)
      | Some _ => None
      end
  | LoadBudget => Some (w, current_budget (asr_metrics (memory w)))
  | StoreBudget budget =>
      Some (mkWorld
              (set_asr_metrics
                 (set_current_budget budget (asr_metrics (memory w)))
                 (memory w))
              (metrics_lock w), loaded)
  | MutexUnlock => Some (mkWorld (memory w) None, loaded)
  end.

Fixpoint exec_actions (t : thread) (l : list action) (st : world * Z) :
  option (world * Z) :=
  match l with
  | [] => Some st
  | a :: l' => st' <- exec_action t a st ;; exec_actions t l' st'
  end.

(** The actions of each call, read off the source; [s] is the memory the
    call finds. *)
Definition ASR_RecordReplayTask_actions (count : Z) (s : ASRState) :
  list action :=
  LoadEnableFlag ::
  (if negb (enable_adaptive_sr (asr_config s)) || (count <=? 0) then []
   else [AtomicFetchAdd ReplayTasksCount (uint64_of_Z count)]).

Definition ASR_RecordHotMiss_actions (s : ASRState) : list action :=
  LoadEnableFlag ::
  (if negb (enable_adaptive_sr (asr_config s)) then []
   else [AtomicFetchAdd HotMisses 1]).

Definition ASR_RecordWalIngest_actions (bytes : Z) (s : ASRState) :
  list action :=
  LoadEnableFlag ::
  (if negb (enable_adaptive_sr (asr_config s)) || (bytes =? 0) then []
   else [AtomicFetchAdd WalBytesReceived (uint64_of_Z bytes)]).

Definition ASR_GetCurrentBudget_actions : list action :=
  [MutexLock; LoadBudget; MutexUnlock].

Definition ASR_SetBudget_actions (budget : Z) : list action :=
  [MutexLock; StoreBudget budget; MutexUnlock].

(** The controller enters the critical section of its tick: the
    [pthread_mutex_lock] of line 257, released on line 361. *)
Definition controller_enters_tick (s : ASRState) : option (world * Z) :=
  exec_action ControllerThread MutexLock (mkWorld s None, 0).

(** The world while the controller is inside that critical section. *)
Definition tick_in_progress : world * Z :=
  (mkWorld asr_enabled (Some ControllerThread), 0).

(** ** Further scenarios *)

(** The state after the first round of the hot-miss scenario. *)
Definition after_first_round : ASRState :=
  match hot_miss_round 1 asr_enabled with
  | Some s => s
  | None => asr_enabled
  end.

(** The state after one cycle of the controller that is still running
    although the configuration is disabled. *)
Definition after_disabled_cycle : ASRState :=
  match asr_controller_cycle 1 asr_disabled_while_running with
  | Some s => s
  | None => asr_disabled_while_running
  end.

(** A burst: a million replay tasks and 100 MiB of WAL before one tick. *)
Definition asr_burst : ASRState :=
  ASR_RecordWalIngest (100 * 1024 * 1024)
    (ASR_RecordReplayTask 1000000 asr_enabled).

Definition after_burst_tick : ASRState :=
  match asr_update_smoothed_metrics 1 asr_burst with
  | Some s => s
  | None => asr_burst
  end.

(** Reduction of field reads over field assignments. *)
Ltac metrics_fields :=
  cbv beta iota zeta delta
    [set_replay_tasks_count set_hot_misses set_wal_bytes_received
     set_queue_ewma set_miss_rate_ewma set_wal_bps_ewma set_current_budget
     set_current_aggressiveness set_last_total_misses set_last_total_tasks
     set_last_wal_bytes set_last_measurement
     replay_tasks_count hot_misses wal_bytes_received queue_ewma
     miss_rate_ewma wal_bps_ewma current_budget current_aggressiveness
     last_total_misses last_total_tasks last_wal_bytes last_measurement].

Ltac state_fields :=
  cbv beta iota zeta delta
    [set_asr_metrics set_asr_config set_asr_shutdown_requested
     set_asr_controller_tid asr_config asr_metrics asr_shutdown_requested
     asr_controller_tid tick_smooth];
  metrics_fields.

(** ** Definitions for the further properties *)

(** Lines 207-208 of [budget_from_aggressiveness]: the clamp of [A]. *)
Definition clamp_aggressiveness (A : double) : double :=
  let A := if dlt A 0.0%Q then 0.0%Q else A in
  if dgt A 1.0%Q then 1.0%Q else A.

(** Both budget bounds and their difference are [int]s; no order between
    the bounds is asked. *)
Definition cfg_int_safe (cfg : ASRConfig) : Prop :=
  INT_MIN <= BMIN cfg <= INT_MAX /\
  INT_MIN <= BMAX cfg <= INT_MAX /\
  INT_MIN <= BMAX cfg - BMIN cfg <= INT_MAX.

Definition ewmas_nonneg (m : ASRMetricsInternal) : Prop :=
  (0 <= queue_ewma m)%Q /\ (0 <= miss_rate_ewma m)%Q /\
  (0 <= wal_bps_ewma m)%Q.


(** A batch of [ASR_RecordReplayTask] calls, one per element. *)
Definition record_replay_tasks (counts : list Z) (s : ASRState) : ASRState :=
  fold_left (fun s count => ASR_RecordReplayTask count s) counts s.

Definition is_tick (e : event) : bool :=
  match e with
  | EvTick _ => true
  | _ => false
  end.

(** ** The budgeted replay loop

    [ApplyXlogUntil] of wal_redo.c, as the integration reference of the
    repository prints it.  The WAL reader and the redo routines are
    collaborators outside these sources: a reader state [R] gives its
    [EndRecPtr] and, through [XLogReadRecord], the next record and the
    advanced reader, or nothing ([NULL]); [rm_redo] stands for what the
    body does to the rest of the server state [P] with a record: the
    decode call, the redo call and the reply forced to the WAL
    receiver. *)
Record XLogReader (R Rec P : Type) : Type := mkXLogReader {
  EndRecPtr : R -> Z;
  XLogReadRecord : R -> option (Rec * R);
  rm_redo : Rec -> P -> P
}.

Arguments EndRecPtr {R Rec P}.
Arguments XLogReadRecord {R Rec P}.
Arguments rm_redo {R Rec P}.

(** The variables of the loop; [replayed] lists the records handed to
    [rm_redo], latest first, and is kept for the statements only. *)
Record replay_state (R Rec P : Type) : Type := mkReplayState {
  reader_state : R;
  pages : P;
  asr : ASRState;
  records_replayed : Z;
  replayed : list Rec
}.

Arguments mkReplayState {R Rec P}.
Arguments reader_state {R Rec P}.
Arguments pages {R Rec P}.
Arguments asr {R Rec P}.
Arguments records_replayed {R Rec P}.
Arguments replayed {R Rec P}.

(** The [while] loop.  The loop test and the body come first; [fuel]
    bounds the number of further iterations, and [None] means that it did
    not suffice. *)
Fixpoint ApplyXlogUntil_loop {R Rec P : Type} (x : XLogReader R Rec P)
  (fuel : nat) (lsn replay_budget : Z) (st : replay_state R Rec P) :
  option (replay_state R Rec P) :=
  if EndRecPtr x (reader_state st) <? lsn then
    match XLogReadRecord x (reader_state st) with
    | None => Some st
    | Some (record, reader') =>
        let st :=
          mkReplayState reader' (rm_redo x record (pages st))
            (ASR_RecordReplayTask 1 (asr st))
            (records_replayed st + 1)
            (record :: replayed st) in
        if records_replayed st >=? replay_budget then Some st
        else
          match fuel with
          | O => None
          | S fuel' => ApplyXlogUntil_loop x fuel' lsn replay_budget st
          end
    end
  else Some st.

(** [ApplyXlogUntil]: the budget is read once, before the loop, which
    then needs no more iterations than the budget allows. *)
Definition ApplyXlogUntil {R Rec P : Type} (x : XLogReader R Rec P)
  (lsn : Z) (reader : R) (p : P) (s : ASRState) :
  option (replay_state R Rec P) :=
  let replay_budget := ASR_GetCurrentBudget s in
  ApplyXlogUntil_loop x (Z.to_nat replay_budget) lsn replay_budget
    (mkReplayState reader p s 0 []).

(** The first [n] records of the stream (fewer when it ends), with the
    reader after them. *)
Fixpoint read_records {R Rec P : Type} (x : XLogReader R Rec P) (n : nat)
  (reader : R) : list Rec * R :=
  match n with
  | O => ([], reader)
  | S n' =>
      match XLogReadRecord x reader with
      | None => ([], reader)
      | Some (record, reader') =>
          let (l, r) := read_records x n' reader' in (record :: l, r)
      end
  end.

(** What the loop adds to the state it starts from: [new] are the
    records it replays, in order, and the last clause says why it
    stopped. *)
Definition loop_extends {R Rec P : Type} (x : XLogReader R Rec P)
  (lsn replay_budget : Z) (st st' : replay_state R Rec P)
  (new : list Rec) : Prop :=
  replayed st' = rev new ++ replayed st /\
  (new, reader_state st') = read_records x (length new) (reader_state st) /\
  pages st' = fold_left (fun p r => rm_redo x r p) new (pages st) /\
  asr st' = Nat.iter (length new) (ASR_RecordReplayTask 1) (asr st) /\
  records_replayed st' = records_replayed st + Z.of_nat (length new) /\
  ((new <> [] /\ replay_budget <= records_replayed st') \/
   lsn <= EndRecPtr x (reader_state st') \/
   XLogReadRecord x (reader_state st') = None).

(** A WAL stream held in a list of records, each standing for its own end
    position; replaying a record adds it to a sum. *)
Definition list_reader : XLogReader (Z * list Z) Z Z :=
  mkXLogReader (Z * list Z) Z Z
    (fun r => fst r)
    (fun r =>
       match snd r with
       | [] => None
       | record :: rest => Some (record, (record, rest))
       end)
    (fun record p => p + record).

(** ** States for the examples *)

(** The tick that follows the tick after the burst, with no ingest in
    between. *)
Definition after_burst_second_tick : ASRState :=
  match asr_update_smoothed_metrics 2 after_burst_tick with
  | Some s => s
  | None => after_burst_tick
  end.

(** The burst as a run. *)
Definition burst_events : list event :=
  [EvRecordReplayTask 1000000; EvRecordWalIngest (100 * 1024 * 1024);
   EvTick 1].

(** The default bounds with [BMAX] lowered to 500. *)
Definition asr_narrow_config : ASRConfig :=
  mkASRConfig 100.0%Q 0.05%Q (double_of_Z (10 * 1024 * 1024)) 10 500
    0.3%Q 0.6%Q 0.1%Q 20 0.2%Q true false.

Definition asr_narrow : ASRState :=
  ASR_UpdateConfig (Some asr_narrow_config) (ASR_Init asr_static).

Definition after_narrow_burst : ASRState :=
  match run burst_events asr_narrow with
  | Some s => s
  | None => asr_narrow
  end.

(** The budget forced to 5000 by [ASR_SetBudget], then one tick. *)
Definition after_forced_budget_tick : ASRState :=
  match asr_update_smoothed_metrics 1 (ASR_SetBudget 5000 asr_enabled) with
  | Some s => s
  | None => asr_enabled
  end.

(** Case analysis of two ingest calls on [s]; [comm] swaps two additions
    to a counter. *)
Ltac ingest_cases s comm :=
  unfold ASR_RecordReplayTask, ASR_RecordHotMiss, ASR_RecordWalIngest;
  destruct s as [cfg m sd tid];
  cbn [asr_config asr_metrics set_asr_metrics];
  destruct (enable_adaptive_sr cfg) eqn:Hon;
  cbn [negb orb];
  repeat match goal with
         | |- context [?a <=? 0] => destruct (a <=? 0)
         | |- context [?a =? 0] => destruct (a =? 0)
         end;
  cbn; rewrite ?Hon; cbn; try reflexivity;
  try (rewrite comm; reflexivity).

(** ** Special values of the aggressiveness

    What [budget_from_aggressiveness] can be handed by the machine: a
    number, an infinity, or a NaN.  The weighted sum of line 315 is a NaN
    when a pressure is infinite and its weight is zero, which a reference
    level that is not positive allows. *)
Inductive double_arg : Type :=
| Number (x : double)
| PlusInfinity
| MinusInfinity
| NaN.

(** Lines 207-210 on such an argument.  Every comparison with a NaN is
    false, so a NaN passes both clamps and reaches [(int)floor(...)],
    which is undefined for it; an infinity is replaced by the clamp it
    lies beyond. *)
Definition budget_from_aggressiveness_arg (A : double_arg)
  (cfg : ASRConfig) : option Z :=
  match A with
  | Number x => budget_from_aggressiveness x cfg
  | PlusInfinity => budget_from_aggressiveness 1.0%Q cfg
  | MinusInfinity => budget_from_aggressiveness 0.0%Q cfg
  | NaN => None
  end.

(** The three reference levels are positive: every pressure is then a
    number in [0, 1], whatever the smoothed metric. *)
Definition cfg_references_positive (cfg : ASRConfig) : Prop :=
  (0 < QSTAR cfg)%Q /\ (0 < RSTAR cfg)%Q /\ (0 < WSTAR cfg)%Q.

(** ** A negative step limit *)

(** The default configuration, switched on, with [MAX_STEP = -0.2]. *)
Definition asr_negative_step_config : ASRConfig :=
  mkASRConfig 100.0%Q 0.05%Q (double_of_Z (10 * 1024 * 1024)) 10 2000
    0.3%Q 0.6%Q 0.1%Q 20 (- 0.2)%Q true false.

Definition asr_negative_step : ASRState :=
  ASR_UpdateConfig (Some asr_negative_step_config) (ASR_Init asr_static).

(** The first tick under that configuration, with no load at all. *)
Definition after_negative_step_tick : ASRState :=
  match asr_update_smoothed_metrics 1 asr_negative_step with
  | Some s => s
  | None => asr_negative_step
  end.

(** ** The smoother and the step limit in binary64

    Lines 107-130 and 277-328 once more, over the binary64 numbers of the
    machine: the same expressions in the same order, every operation
    rounded to nearest.  The integer parts of the tick (counters, deltas,
    budget) are as above and are left out; the three raw samples of a
    tick are arguments. *)

(** The [double] fields of [ASRConfig] that lines 308-327 read. *)
Record ASRConfig_b64 : Type := mkASRConfig_b64 {
  QSTAR_b64 : float;
  RSTAR_b64 : float;
  WSTAR_b64 : float;
  WQ_b64 : float;
  WM_b64 : float;
  WW_b64 : float;
  MAX_STEP_b64 : float
}.

(** The [double] fields of [asr_metrics] that lines 277-328 assign. *)
Record ASRMetrics_b64 : Type := mkASRMetrics_b64 {
  queue_ewma_b64 : float;
  miss_rate_ewma_b64 : float;
  wal_bps_ewma_b64 : float;
  current_aggressiveness_b64 : float
}.

Definition asr_default_config_b64 : ASRConfig_b64 := {|
  QSTAR_b64 := 100.0;
  RSTAR_b64 := 0.05;
  WSTAR_b64 := 10485760;
  WQ_b64 := 0.3;
  WM_b64 := 0.6;
  WW_b64 := 0.1;
  MAX_STEP_b64 := 0.2
|}.

Definition asr_metrics_static_b64 : ASRMetrics_b64 := {|
  queue_ewma_b64 := 0.0;
  miss_rate_ewma_b64 := 0.0;
  wal_bps_ewma_b64 := 0.0;
  current_aggressiveness_b64 := 0.0
|}.

Definition EWMA_ALPHA_b64 : float := 0.3.

Definition ewma_update_b64 (old_val new_val : float) : float :=
  ((EWMA_ALPHA_b64 * new_val) + ((1.0 - EWMA_ALPHA_b64) * old_val))%float.

Definition compute_pressure_b64 (raw expected : float) : float :=
  if (raw <=? expected)%float then 0.0%float
  else
    let e := ((raw / expected) - 1.0)%float in
    let e := if (1.0 <? e)%float then 1.0%float else e in
    e.

(** Lines 277-328, given the three samples [new_queue], [new_miss_rate]
    and [new_wal_bps] of the tick. *)
Definition asr_update_smoothed_metrics_b64 (cfg : ASRConfig_b64)
  (new_queue new_miss_rate new_wal_bps : float) (m : ASRMetrics_b64) :
  ASRMetrics_b64 :=
  let queue := ewma_update_b64 (queue_ewma_b64 m) new_queue in
  let miss_rate := ewma_update_b64 (miss_rate_ewma_b64 m) new_miss_rate in
  let wal_bps := ewma_update_b64 (wal_bps_ewma_b64 m) new_wal_bps in
  (* Pressures *)
  let e_q := compute_pressure_b64 queue (QSTAR_b64 cfg) in
  let e_m := compute_pressure_b64 miss_rate (RSTAR_b64 cfg) in
  let e_w := compute_pressure_b64 wal_bps (WSTAR_b64 cfg) in
  (* Weighted aggressiveness *)
  let agg := (WQ_b64 cfg * e_q + WM_b64 cfg * e_m + WW_b64 cfg * e_w)%float in
  let agg := if (1.0 <? agg)%float then 1.0%float else agg in
  let agg := if (agg <? 0.0)%float then 0.0%float else agg in
  (* Step limit *)
  let delta_a := (agg - current_aggressiveness_b64 m)%float in
  let agg :=
    if (MAX_STEP_b64 cfg <? PrimFloat.abs delta_a)%float then
      if (0 <? delta_a)%float
      then (current_aggressiveness_b64 m + MAX_STEP_b64 cfg)%float
      else (current_aggressiveness_b64 m - MAX_STEP_b64 cfg)%float
    else agg in
  mkASRMetrics_b64 queue miss_rate wal_bps agg.

(** Two ticks one second apart under the default configuration, from the
    start-up metrics: 100 MiB of WAL are recorded before the first tick
    and a million replay tasks before the second.  With [dt = 1] the
    samples are the counter deltas; the hot-miss sample is 0. *)
Definition after_wal_tick_b64 : ASRMetrics_b64 :=
  asr_update_smoothed_metrics_b64 asr_default_config_b64
    0 0 104857600 asr_metrics_static_b64.

Definition after_tasks_tick_b64 : ASRMetrics_b64 :=
  asr_update_smoothed_metrics_b64 asr_default_config_b64
    1000000 0 0 after_wal_tick_b64.

(** ** The configuration lock

    [asr_config_lock] is a read-write lock.  [ASR_Init],
    [ASR_UpdateConfig] and the tick release it before they return;
    [ASR_GetConfig] takes a read lock and returns holding it.  The lock
    is [static] in adaptive_sr.c and no function of the file releases a
    lock it did not take, so the caller cannot give it back.  What
    outlives a call is therefore the number of read locks left behind;
    no write lock outlives one. *)
Record locked : Type := mkLocked {
  asr_state : ASRState;
  config_readers : nat
}.

(** The calls of the module, and a pass of the controller thread through
    [asr_update_smoothed_metrics]. *)
Inductive api_call : Type :=
| CallInit
| CallStartController (spawned : bool)
| CallShutdown
| CallGetConfig
| CallUpdateConfig (new_config : option ASRConfig)
| CallRecordReplayTask (count : Z)
| CallRecordHotMiss
| CallRecordWalIngest (bytes : Z)
| CallGetCurrentBudget
| CallSetBudget (budget : Z)
| CallReadMetrics
| CallTick (now : Z).

(** A call returns, or waits in [pthread_rwlock_wrlock], or is
    undefined (only the tick can be). *)
Inductive outcome : Type :=
| Returns (w : locked)
| Waits
| Undefined.

(** [pthread_rwlock_wrlock], the assignment [f], [pthread_rwlock_unlock]:
    the write lock is granted only when no read lock is held. *)
Definition with_wrlock (f : ASRState -> ASRState) (w : locked) : outcome :=
  match config_readers w with
  | O => Returns (mkLocked (f (asr_state w)) O)
  | S _ => Waits
  end.

(** A call that does not touch the lock, or that takes a read lock and
    releases it: read locks are shared, so it never waits for one. *)
Definition without_wrlock (s' : ASRState) (w : locked) : outcome :=
  Returns (mkLocked s' (config_readers w)).

Definition do_call (c : api_call) (w : locked) : outcome :=
  let s := asr_state w in
  match c with
  | CallInit => with_wrlock ASR_Init w
  | CallStartController spawned =>
      without_wrlock (ASR_StartController spawned s) w
  | CallShutdown => without_wrlock (ASR_Shutdown s) w
  | CallGetConfig => Returns (mkLocked s (S (config_readers w)))
  | CallUpdateConfig None => Returns w
  | CallUpdateConfig (Some new_config) =>
      with_wrlock (ASR_UpdateConfig (Some new_config)) w
  | CallRecordReplayTask count =>
      without_wrlock (ASR_RecordReplayTask count s) w
  | CallRecordHotMiss => without_wrlock (ASR_RecordHotMiss s) w
  | CallRecordWalIngest bytes =>
      without_wrlock (ASR_RecordWalIngest bytes s) w
  | CallGetCurrentBudget => Returns w
  | CallSetBudget budget => without_wrlock (ASR_SetBudget budget s) w
  | CallReadMetrics => Returns w
  | CallTick now =>
      match asr_update_smoothed_metrics now s with
      | Some s' => without_wrlock s' w
      | None => Undefined
      end
  end.

(** Calls one after the other; a call that waits is never followed by
    another. *)
Fixpoint do_calls (cs : list api_call) (w : locked) : outcome :=
  match cs with
  | [] => Returns w
  | c :: cs' =>
      match do_call c w with
      | Returns w' => do_calls cs' w'
      | Waits => Waits
      | Undefined => Undefined
      end
  end.

(** A reader of the configuration, an ingest call and a tick after it. *)
Definition calls_after_get_config : list api_call :=
  [CallGetConfig; CallRecordReplayTask 5; CallTick 1; CallUpdateConfig None].

Definition after_get_config : locked :=
  match do_calls calls_after_get_config (mkLocked asr_enabled 0) with
  | Returns w => w
  | _ => mkLocked asr_enabled 0
  end.

(** * Properties *)

(** ** Comparisons and conversions *)

Lemma dle_true (x y : double) : dle x y = true <-> (x <= y)%Q.
Proof. unfold dle. apply Qle_bool_iff. Qed.

Lemma dlt_true (x y : double) : dlt x y = true <-> (x < y)%Q.
Proof.
  unfold dlt. rewrite negb_true_iff. split.
  - intro H. apply Qnot_le_lt. intro Hle.
    apply Qle_bool_iff in Hle. congruence.
  - intro H. destruct (Qle_bool y x) eqn:E; [|reflexivity].
    apply Qle_bool_iff in E. exfalso. exact (Qlt_not_le _ _ H E).
Qed.

Lemma dlt_false (x y : double) : dlt x y = false <-> (y <= x)%Q.
Proof. unfold dlt. rewrite negb_false_iff. apply Qle_bool_iff. Qed.

Lemma dgt_true (x y : double) : dgt x y = true <-> (y < x)%Q.
Proof. unfold dgt. apply dlt_true. Qed.

Lemma dgt_false (x y : double) : dgt x y = false <-> (x <= y)%Q.
Proof. unfold dgt. apply dlt_false. Qed.

Lemma to_int_some (z : Z) :
  INT_MIN <= z <= INT_MAX -> to_int z = Some z.
Proof.
  intro H. unfold to_int, in_int_range.
  destruct (Z.leb_spec INT_MIN z); [|lia].
  destruct (Z.leb_spec z INT_MAX); [reflexivity|lia].
Qed.

Lemma to_int_inv (z r : Z) :
  to_int z = Some r -> r = z /\ INT_MIN <= z <= INT_MAX.
Proof.
  unfold to_int, in_int_range. intro H.
  destruct (Z.leb_spec INT_MIN z); [|discriminate].
  destruct (Z.leb_spec z INT_MAX); [|discriminate].
  cbn in H. injection H as <-. lia.
Qed.

(** ** The tick and its phases *)

Lemma tick_phases (now : Z) (s : ASRState) :
  asr_update_smoothed_metrics now s =
  (let cfg := asr_config s in
   let m1 := tick_smooth now (asr_metrics s) in
   let A := tick_aggressiveness now s in
   new_budget <- budget_from_aggressiveness A cfg ;;
   b <- tick_hysteresis cfg (current_budget m1) new_budget ;;
   Some (set_asr_metrics
           (set_last_measurement now
              (set_current_budget b (set_current_aggressiveness A m1))) s)).
Proof.
  unfold asr_update_smoothed_metrics, tick_aggressiveness, tick_hysteresis,
    tick_smooth, tick_step_limit, tick_weighted_aggressiveness,
    tick_new_queue, tick_new_miss_rate, tick_new_wal_bps, tick_dt.
  destruct s as [cfg m sd tid]; destruct m.
  cbv beta iota zeta delta [asr_config asr_metrics].
  metrics_fields.
  match goal with
  | |- bind ?o _ = bind ?o _ => destruct o as [nb|]
  end; [|reflexivity].
  cbn [bind].
  match goal with
  | |- bind ?o _ = bind (bind ?o _) _ => destruct o as [d|]
  end; [|reflexivity].
  cbn [bind].
  destruct (if d <? 0 then int_neg d else Some d); reflexivity.
Qed.

Lemma tick_inv (now : Z) (s s' : ASRState) :
  asr_update_smoothed_metrics now s = Some s' ->
  exists B b : Z,
    budget_from_aggressiveness (tick_aggressiveness now s) (asr_config s)
      = Some B /\
    tick_hysteresis (asr_config s) (current_budget (asr_metrics s)) B
      = Some b /\
    s' = set_asr_metrics
           (set_last_measurement now
              (set_current_budget b
                 (set_current_aggressiveness (tick_aggressiveness now s)
                    (tick_smooth now (asr_metrics s))))) s.
Proof.
  rewrite tick_phases. cbv zeta. intro H.
  destruct (budget_from_aggressiveness _ _) as [B|] eqn:EB; [|discriminate].
  cbn [bind] in H.
  change (current_budget (tick_smooth now (asr_metrics s)))
    with (current_budget (asr_metrics s)) in H.
  destruct (tick_hysteresis _ _ _) as [b|] eqn:Eb; [|discriminate].
  cbn [bind] in H. injection H as <-.
  exists B, b. auto.
Qed.

(** What a successful tick leaves behind, field by field. *)
Lemma tick_fields (now : Z) (s s' : ASRState) :
  asr_update_smoothed_metrics now s = Some s' ->
  let m := asr_metrics s in
  let m' := asr_metrics s' in
  asr_config s' = asr_config s /\
  queue_ewma m' = ewma_update (queue_ewma m) (tick_new_queue now m) /\
  miss_rate_ewma m' =
    ewma_update (miss_rate_ewma m) (tick_new_miss_rate m) /\
  wal_bps_ewma m' = ewma_update (wal_bps_ewma m) (tick_new_wal_bps now m) /\
  current_aggressiveness m' = tick_aggressiveness now s /\
  exists B : Z,
    budget_from_aggressiveness (tick_aggressiveness now s) (asr_config s)
      = Some B /\
    tick_hysteresis (asr_config s) (current_budget m) B
      = Some (current_budget m').
Proof.
  intro H. apply tick_inv in H. destruct H as (B & b & HB & Hb & ->).
  cbv zeta. state_fields.
  repeat (split; [reflexivity|]).
  exists B. split; assumption.
Qed.

Lemma tick_smooth_fields (now : Z) (m : ASRMetricsInternal) :
  let m1 := tick_smooth now m in
  queue_ewma m1 = ewma_update (queue_ewma m) (tick_new_queue now m) /\
  miss_rate_ewma m1 = ewma_update (miss_rate_ewma m) (tick_new_miss_rate m) /\
  wal_bps_ewma m1 = ewma_update (wal_bps_ewma m) (tick_new_wal_bps now m) /\
  current_aggressiveness m1 = current_aggressiveness m /\
  current_budget m1 = current_budget m.
Proof. cbv zeta. repeat split. Qed.

Lemma tick_weighted_aggressiveness_ext (cfg : ASRConfig)
  (m1 m2 : ASRMetricsInternal) :
  queue_ewma m1 = queue_ewma m2 ->
  miss_rate_ewma m1 = miss_rate_ewma m2 ->
  wal_bps_ewma m1 = wal_bps_ewma m2 ->
  tick_weighted_aggressiveness cfg m1 = tick_weighted_aggressiveness cfg m2.
Proof.
  intros H1 H2 H3. unfold tick_weighted_aggressiveness.
  rewrite H1, H2, H3. reflexivity.
Qed.

(** The stored aggressiveness is the step-limited weighted sum of the
    pressures of the freshly smoothed metrics. *)
Lemma tick_stored_aggressiveness (now : Z) (s s' : ASRState) :
  asr_update_smoothed_metrics now s = Some s' ->
  current_aggressiveness (asr_metrics s') =
  tick_step_limit (asr_config s) (current_aggressiveness (asr_metrics s))
    (tick_weighted_aggressiveness (asr_config s) (asr_metrics s')).
Proof.
  intro H. apply tick_fields in H. cbv zeta in H.
  destruct H as (_ & Hq & Hm & Hw & Ha & _).
  rewrite Ha. unfold tick_aggressiveness. cbv zeta.
  destruct (tick_smooth_fields now (asr_metrics s))
    as (Hq1 & Hm1 & Hw1 & Ha1 & _).
  rewrite Ha1. f_equal.
  apply tick_weighted_aggressiveness_ext; congruence.
Qed.

(** The comparison on line 286 reads [last_total_tasks] after line 278
    has overwritten it with [total_tasks]: the sample is always zero. *)
Lemma tick_new_miss_rate_zero (m : ASRMetricsInternal) :
  tick_new_miss_rate m = 0.0%Q.
Proof.
  unfold tick_new_miss_rate. cbv zeta.
  change (last_total_tasks (set_last_total_tasks (replay_tasks_count m) m))
    with (replay_tasks_count m).
  rewrite Z.ltb_irrefl. reflexivity.
Qed.

Lemma tick_miss_rate_ewma (now : Z) (s s' : ASRState) :
  asr_update_smoothed_metrics now s = Some s' ->
  miss_rate_ewma (asr_metrics s') =
  ewma_update (miss_rate_ewma (asr_metrics s)) 0.0%Q.
Proof.
  intro H. apply tick_fields in H. cbv zeta in H.
  destruct H as (_ & _ & Hm & _).
  rewrite Hm, tick_new_miss_rate_zero. reflexivity.
Qed.

Lemma ewma_update_zero (x : double) :
  (x == 0)%Q -> (ewma_update x 0.0 == 0)%Q.
Proof. intro H. unfold ewma_update, EWMA_ALPHA. rewrite H. reflexivity. Qed.

Lemma ewma_update_rule (x_ewma x_raw : double) :
  (ewma_update x_ewma x_raw == spec_ewma EWMA_ALPHA x_ewma x_raw)%Q.
Proof. unfold ewma_update, spec_ewma. lra. Qed.

(** ** Budget bounds *)

Lemma budget_from_aggressiveness_bounds (A : double) (cfg : ASRConfig) :
  cfg_bounds_ok cfg ->
  exists B : Z,
    budget_from_aggressiveness A cfg = Some B /\
    BMIN cfg <= B <= BMAX cfg.
Proof.
  intros (Hmin & Hle & Hmax & Hspan).
  unfold budget_from_aggressiveness.
  set (A1 := if dlt A 0.0%Q then 0.0%Q else A).
  set (A2 := if dgt A1 1.0%Q then 1.0%Q else A1).
  assert (HA : (0 <= A2 <= 1)%Q).
  { subst A2 A1.
    destruct (dlt A 0.0%Q) eqn:E1.
    - destruct (dgt 0.0%Q 1.0%Q) eqn:E2.
      + apply dgt_true in E2. lra.
      + lra.
    - apply dlt_false in E1.
      destruct (dgt A 1.0%Q) eqn:E2.
      + lra.
      + apply dgt_false in E2. lra. }
  unfold int_sub. rewrite to_int_some by (unfold INT_MIN, INT_MAX in *; lia).
  cbn [bind]. unfold int_of_floor, double_of_Z.
  set (x := (inject_Z (BMIN cfg) + A2 * inject_Z (BMAX cfg - BMIN cfg))%Q).
  assert (Hx : (inject_Z (BMIN cfg) <= x <= inject_Z (BMAX cfg))%Q).
  { subst x.
    assert (Hs : (0 <= inject_Z (BMAX cfg - BMIN cfg))%Q).
    { change 0%Q with (inject_Z 0). rewrite <- Zle_Qle. lia. }
    assert (Hd : (inject_Z (BMAX cfg) ==
                  inject_Z (BMIN cfg) + inject_Z (BMAX cfg - BMIN cfg))%Q).
    { rewrite <- inject_Z_plus. apply inject_Z_injective. lia. }
    rewrite Hd. split; nra. }
  assert (Hf : BMIN cfg <= Qfloor x <= BMAX cfg).
  { destruct Hx as [H1 H2]. apply Qfloor_resp_le in H1, H2.
    rewrite Qfloor_Z in H1, H2. lia. }
  exists (Qfloor x). split; [|exact Hf].
  apply to_int_some. lia.
Qed.

Lemma tick_hysteresis_inv (cfg : ASRConfig) (last B b : Z) :
  tick_hysteresis cfg last B = Some b ->
  (Z.abs (B - last) < HYST cfg -> b = last) /\
  (HYST cfg <= Z.abs (B - last) -> b = B).
Proof.
  unfold tick_hysteresis, int_sub, int_neg. intro H.
  destruct (to_int (B - last)) as [d|] eqn:Ed; [|discriminate].
  apply to_int_inv in Ed. destruct Ed as [-> _]. cbn [bind] in H.
  destruct (Z.ltb_spec (B - last) 0) as [Hneg|Hpos].
  - destruct (to_int (- (B - last))) as [d|] eqn:Ed; [|discriminate].
    apply to_int_inv in Ed. destruct Ed as [-> _]. cbn [bind] in H.
    injection H as <-.
    destruct (Z.ltb_spec (- (B - last)) (HYST cfg)); split; intros; lia.
  - cbn [bind] in H. injection H as <-.
    destruct (Z.ltb_spec (B - last) (HYST cfg)); split; intros; lia.
Qed.

Lemma tick_hysteresis_total (cfg : ASRConfig) (last B : Z) :
  INT_MIN < B - last <= INT_MAX ->
  exists b : Z, tick_hysteresis cfg last B = Some b.
Proof.
  intro H. unfold tick_hysteresis, int_sub, int_neg.
  rewrite to_int_some by lia. cbn [bind].
  destruct (B - last <? 0).
  - rewrite to_int_some by (unfold INT_MIN, INT_MAX in *; lia).
    cbn [bind]. eauto.
  - cbn [bind]. eauto.
Qed.

(** With usable bounds a tick is defined and keeps the budget inside. *)
Lemma tick_keeps_bounds (now : Z) (s : ASRState) :
  cfg_bounds_ok (asr_config s) ->
  budget_in_bounds s ->
  exists s' : ASRState,
    asr_update_smoothed_metrics now s = Some s' /\
    asr_config s' = asr_config s /\
    budget_in_bounds s'.
Proof.
  intros Hcfg Hb.
  destruct (budget_from_aggressiveness_bounds (tick_aggressiveness now s)
              _ Hcfg) as (B & HB & HBr).
  destruct (tick_hysteresis_total (asr_config s)
              (current_budget (asr_metrics s)) B) as (b & Hb').
  { unfold budget_in_bounds, ASR_GetCurrentBudget, cfg_bounds_ok in *.
    unfold INT_MIN, INT_MAX in *. lia. }
  rewrite tick_phases. cbv zeta. rewrite HB. cbn [bind].
  change (current_budget (tick_smooth now (asr_metrics s)))
    with (current_budget (asr_metrics s)).
  rewrite Hb'. cbn [bind]. eexists. split; [reflexivity|].
  split; [reflexivity|].
  unfold budget_in_bounds, ASR_GetCurrentBudget in *. cbn.
  destruct (tick_hysteresis_inv _ _ _ _ Hb') as [H1 H2].
  destruct (Z_lt_le_dec (Z.abs (B - current_budget (asr_metrics s)))
              (HYST (asr_config s))) as [Hlt|Hge].
  - rewrite (H1 Hlt). exact Hb.
  - rewrite (H2 Hge). exact HBr.
Qed.

Lemma default_config_bounds_ok : cfg_bounds_ok asr_default_config.
Proof. unfold cfg_bounds_ok, INT_MIN, INT_MAX. cbn. lia. Qed.

Lemma enabled_config_bounds_ok : cfg_bounds_ok asr_enabled_config.
Proof. unfold cfg_bounds_ok, INT_MIN, INT_MAX. cbn. lia. Qed.

(** ** Ingest leaves the controller's fields alone *)

Lemma ASR_RecordReplayTask_frame (count : Z) :
  ingest_frame (ASR_RecordReplayTask count).
Proof.
  intro s. unfold ASR_RecordReplayTask.
  destruct (negb _ || _); split; reflexivity.
Qed.

Lemma ASR_RecordHotMiss_frame : ingest_frame ASR_RecordHotMiss.
Proof.
  intro s. unfold ASR_RecordHotMiss.
  destruct (negb _); split; reflexivity.
Qed.

Lemma ASR_RecordWalIngest_frame (bytes : Z) :
  ingest_frame (ASR_RecordWalIngest bytes).
Proof.
  intro s. unfold ASR_RecordWalIngest.
  destruct (negb _ || _); split; reflexivity.
Qed.

Lemma ingest_frame_iter (f : ASRState -> ASRState) (n : nat) :
  ingest_frame f -> ingest_frame (Nat.iter n f).
Proof.
  intros Hf s. induction n as [|n [IH1 IH2]].
  - split; reflexivity.
  - change (Nat.iter (S n) f s) with (f (Nat.iter n f s)).
    destruct (Hf (Nat.iter n f s)) as [H1 H2]. split; congruence.
Qed.

Lemma hot_miss_load_frame : ingest_frame hot_miss_load.
Proof.
  intro s. unfold hot_miss_load.
  destruct (ingest_frame_iter _ 25 ASR_RecordHotMiss_frame
              (Nat.iter 50 (ASR_RecordReplayTask 1) s)) as [H1 H2].
  destruct (ingest_frame_iter _ 50 (ASR_RecordReplayTask_frame 1) s)
    as [H3 H4].
  split; congruence.
Qed.

Lemma controller_fields_budget (s s' : ASRState) :
  controller_fields s' = controller_fields s ->
  ASR_GetCurrentBudget s' = ASR_GetCurrentBudget s.
Proof.
  unfold controller_fields, ASR_GetCurrentBudget. intro H.
  injection H. auto.
Qed.

Lemma controller_fields_miss_rate (s s' : ASRState) :
  controller_fields s' = controller_fields s ->
  miss_rate_ewma (asr_metrics s') = miss_rate_ewma (asr_metrics s).
Proof.
  unfold controller_fields. intro H. injection H. auto.
Qed.

Lemma ingest_frame_bounds (f : ASRState -> ASRState) (s : ASRState) :
  ingest_frame f -> budget_in_bounds s -> budget_in_bounds (f s).
Proof.
  intros Hf Hb. destruct (Hf s) as [Hc Hm].
  unfold budget_in_bounds. rewrite Hc, (controller_fields_budget _ _ Hm).
  exact Hb.
Qed.

(** Every run of ingest calls and ticks is defined, keeps the
    configuration, and keeps the budget within its bounds. *)
Lemma run_keeps_bounds (evs : list event) :
  forall s : ASRState,
    cfg_bounds_ok (asr_config s) ->
    budget_in_bounds s ->
    exists s' : ASRState,
      run evs s = Some s' /\
      asr_config s' = asr_config s /\
      budget_in_bounds s'.
Proof.
  induction evs as [|e evs IH]; intros s Hcfg Hb.
  - exists s. cbn. auto.
  - assert (Hstep : exists s1, apply_event e s = Some s1 /\
                      asr_config s1 = asr_config s /\ budget_in_bounds s1).
    { destruct e as [count| |bytes|now]; cbn [apply_event].
      - eexists. split; [reflexivity|]. split.
        + apply ASR_RecordReplayTask_frame.
        + apply ingest_frame_bounds; auto using ASR_RecordReplayTask_frame.
      - eexists. split; [reflexivity|]. split.
        + apply ASR_RecordHotMiss_frame.
        + apply ingest_frame_bounds; auto using ASR_RecordHotMiss_frame.
      - eexists. split; [reflexivity|]. split.
        + apply ASR_RecordWalIngest_frame.
        + apply ingest_frame_bounds; auto using ASR_RecordWalIngest_frame.
      - apply tick_keeps_bounds; assumption. }
    destruct Hstep as (s1 & H1 & Hc1 & Hb1).
    destruct (IH s1) as (s' & H' & Hc' & Hb'); [congruence|assumption|].
    exists s'. cbn [run]. rewrite H1. cbn [bind].
    repeat split; try assumption; try congruence; apply Hb'.
Qed.

(** ** Calls while disabled *)

Lemma disabled_calls_are_noops (s : ASRState) :
  enable_adaptive_sr (asr_config s) = false ->
  (forall count, ASR_RecordReplayTask count s = s) /\
  ASR_RecordHotMiss s = s /\
  (forall bytes, ASR_RecordWalIngest bytes s = s) /\
  (forall spawned, ASR_StartController spawned s = s).
Proof.
  intro H.
  unfold ASR_RecordReplayTask, ASR_RecordHotMiss, ASR_RecordWalIngest,
    ASR_StartController.
  rewrite H. cbn [negb orb]. auto.
Qed.

(** ** The step limit *)

Lemma tick_step_limit_cases (cfg : ASRConfig) (prev agg : double) :
  let A' := tick_step_limit cfg prev agg in
  ((MAX_STEP cfg < Qabs (agg - prev))%Q ->
   ((prev < agg)%Q -> A' = (prev + MAX_STEP cfg)%Q) /\
   ((agg <= prev)%Q -> A' = (prev - MAX_STEP cfg)%Q)) /\
  ((Qabs (agg - prev) <= MAX_STEP cfg)%Q -> A' = agg) /\
  ((0 <= MAX_STEP cfg)%Q ->
   (Qabs (A' - prev) <= Qabs (agg - prev))%Q).
Proof.
  cbv zeta. unfold tick_step_limit, fabs. cbv zeta.
  destruct (dgt (Qabs (agg - prev)) (MAX_STEP cfg)) eqn:E.
  - apply dgt_true in E. split; [|split].
    + intros _. destruct (dgt (agg - prev) 0%Q) eqn:E2.
      * apply dgt_true in E2. split; [reflexivity|]. intro H. lra.
      * apply dgt_false in E2. split; [|reflexivity]. intro H. lra.
    + intro H. lra.
    + intro HM. destruct (dgt (agg - prev) 0%Q) eqn:E2.
      * setoid_replace (prev + MAX_STEP cfg - prev)%Q with (MAX_STEP cfg)
          by ring.
        rewrite (Qabs_pos (MAX_STEP cfg)) by exact HM. lra.
      * setoid_replace (prev - MAX_STEP cfg - prev)%Q
          with (- MAX_STEP cfg)%Q by ring.
        rewrite Qabs_opp, (Qabs_pos (MAX_STEP cfg)) by exact HM. lra.
  - apply dgt_false in E. split; [|split].
    + intro H. lra.
    + reflexivity.
    + intros _. apply Qle_refl.
Qed.

(** * The claims *)

(** ** C1: the hot-miss sample *)

(** The first round of the hot-miss scenario, evaluated: 50 tasks and 25
    misses are counted and read by the tick, and the smoothed miss rate is
    still zero, where the sample 25/51 would have left 0.3 * 25/51. *)
Example hot_miss_first_round :
  hot_miss_round 1 asr_enabled = Some after_first_round /\
  replay_tasks_count (asr_metrics after_first_round) = 50 /\
  hot_misses (asr_metrics after_first_round) = 25 /\
  last_total_tasks (asr_metrics after_first_round) = 50 /\
  last_total_misses (asr_metrics after_first_round) = 25 /\
  (miss_rate_ewma (asr_metrics after_first_round) == 0)%Q /\
  ~ (miss_rate_ewma (asr_metrics after_first_round) ==
     spec_ewma EWMA_ALPHA 0 (25 # 51))%Q.
Proof.
  split; [vm_compute; reflexivity|].
  vm_compute. repeat split; discriminate.
Qed.

(** C1.  In the hot-miss scenario (per tick 50 recorded replay tasks and
    25 recorded hot misses, ticks one second apart, subsystem enabled)
    every tick is defined and [miss_rate_ewma] is 0 after any number of
    rounds: it does not approach 25/51.  The tick overwrites
    [last_total_tasks] before it tests [total_tasks > last_total_tasks],
    so the sample [misses_delta / (tasks_delta + 1)] is never taken. *)
Theorem hot_miss_scenario_miss_rate_stays_zero (k : nat) :
  exists s : ASRState,
    hot_miss_rounds k asr_enabled = Some s /\
    (miss_rate_ewma (asr_metrics s) == 0)%Q.
Proof.
  enough (H : exists s : ASRState,
             hot_miss_rounds k asr_enabled = Some s /\
             asr_config s = asr_enabled_config /\
             budget_in_bounds s /\
             (miss_rate_ewma (asr_metrics s) == 0)%Q).
  { destruct H as (s & H1 & _ & _ & H2). eauto. }
  induction k as [|k (s & Hrun & Hcfg & Hb & Hm)].
  - exists asr_enabled. cbn [hot_miss_rounds]. repeat split.
    + unfold ASR_GetCurrentBudget. cbn. lia.
    + unfold ASR_GetCurrentBudget. cbn. lia.
  - destruct (hot_miss_load_frame s) as [Hc Hf].
    destruct (tick_keeps_bounds (Z.of_nat (S k)) (hot_miss_load s))
      as (s' & Htick & Hc' & Hb').
    { rewrite Hc, Hcfg. exact enabled_config_bounds_ok. }
    { apply ingest_frame_bounds; [exact hot_miss_load_frame|exact Hb]. }
    exists s'. cbn [hot_miss_rounds]. rewrite Hrun. cbn [bind].
    unfold hot_miss_round. split; [exact Htick|].
    split; [congruence|]. split; [exact Hb'|].
    rewrite (tick_miss_rate_ewma _ _ _ Htick).
    apply ewma_update_zero.
    rewrite (controller_fields_miss_rate _ _ Hf). exact Hm.
Qed.

(** ** C2: the disabled subsystem *)

(** C2, as stated, fails: a controller that was started while the
    subsystem was enabled keeps ticking after the configuration is
    switched to disabled.  Its next cycle moves the published budget from
    10 to 49 and updates the smoother state. *)
Lemma disabled_tick_still_updates :
  enable_adaptive_sr (asr_config asr_disabled_while_running) = false /\
  asr_controller_tid asr_disabled_while_running = true /\
  ASR_GetCurrentBudget asr_disabled_while_running = 10 /\
  last_measurement (asr_metrics asr_disabled_while_running) = 0 /\
  asr_controller_cycle 1 asr_disabled_while_running
    = Some after_disabled_cycle /\
  ASR_GetCurrentBudget after_disabled_cycle = 49 /\
  last_measurement (asr_metrics after_disabled_cycle) = 1 /\
  (wal_bps_ewma (asr_metrics after_disabled_cycle) == 12582912)%Q.
Proof. vm_compute. repeat split. Qed.

(** C2, amended.  While [enable_adaptive_sr] is false every ingest call
    returns the state it was given, and so does [ASR_StartController]: no
    controller thread is created.  Hence, when no controller thread
    exists, no sequence of ingest calls, start requests and controller
    cycles changes anything: counters, smoother state, EWMAs,
    aggressiveness and published budget stay as they are. *)
Theorem disabled_is_inert (s : ASRState) :
  enable_adaptive_sr (asr_config s) = false ->
  ((forall count, ASR_RecordReplayTask count s = s) /\
   ASR_RecordHotMiss s = s /\
   (forall bytes, ASR_RecordWalIngest bytes s = s) /\
   (forall spawned, ASR_StartController spawned s = s)) /\
  (asr_controller_tid s = false ->
   forall s' : ASRState, asr_steps s s' -> s' = s).
Proof.
  intro Hoff. split; [exact (disabled_calls_are_noops s Hoff)|].
  intros Htid s' Hsteps.
  induction Hsteps as [s|s1 s2 s3 Hstep _ IH]; [reflexivity|].
  assert (E : s2 = s1).
  { destruct (disabled_calls_are_noops s1 Hoff) as (H1 & H2 & H3 & H4).
    inversion Hstep; subst; auto. congruence. }
  subst s2. auto.
Qed.

Lemma disabled_is_inert_witness :
  enable_adaptive_sr (asr_config (ASR_Init asr_static)) = false /\
  asr_controller_tid (ASR_Init asr_static) = false /\
  asr_steps (ASR_Init asr_static)
    (ASR_RecordHotMiss (ASR_StartController true (ASR_Init asr_static))) /\
  ASR_RecordHotMiss (ASR_StartController true (ASR_Init asr_static)) =
  ASR_Init asr_static.
Proof.
  assert (Hsteps : asr_steps (ASR_Init asr_static)
            (ASR_RecordHotMiss
               (ASR_StartController true (ASR_Init asr_static)))).
  { eapply steps_cons; [apply (step_start_controller true)|].
    eapply steps_cons; [apply step_record_hot_miss|]. apply steps_refl. }
  split; [reflexivity|]. split; [reflexivity|]. split; [exact Hsteps|].
  exact (proj2 (disabled_is_inert (ASR_Init asr_static) eq_refl) eq_refl _
           Hsteps).
Defined.

(** ** C3: initialisation *)

(** C3, as stated, fails: [ASR_Init] called on the state after the first
    round of the hot-miss scenario leaves the counters, the previous
    counter snapshots, the previous timestamp and the queue EWMA as they
    were. *)
Lemma init_keeps_counters_and_smoother :
  hot_miss_round 1 asr_enabled = Some after_first_round /\
  replay_tasks_count (asr_metrics (ASR_Init after_first_round)) = 50 /\
  hot_misses (asr_metrics (ASR_Init after_first_round)) = 25 /\
  last_total_tasks (asr_metrics (ASR_Init after_first_round)) = 50 /\
  last_total_misses (asr_metrics (ASR_Init after_first_round)) = 25 /\
  last_measurement (asr_metrics (ASR_Init after_first_round)) = 1 /\
  (queue_ewma (asr_metrics (ASR_Init after_first_round)) == 15)%Q.
Proof.
  split; [vm_compute; reflexivity|].
  vm_compute. repeat split.
Qed.

(** C3, amended.  [ASR_Init] installs the default configuration and sets
    the published budget to its [BMIN], 10, whatever the state before.
    Every other field of the metrics keeps its value; counters and
    smoother state are zero after [ASR_Init] when it runs on the state
    the process starts with. *)
Theorem init_installs_defaults_and_budget (s : ASRState) :
  asr_config (ASR_Init s) = asr_default_config /\
  ASR_GetCurrentBudget (ASR_Init s) = BMIN asr_default_config /\
  asr_metrics (ASR_Init s) =
    set_current_budget (BMIN asr_default_config) (asr_metrics s) /\
  asr_metrics (ASR_Init asr_static) =
    mkASRMetricsInternal 0 0 0 0.0 0.0 0.0 10 0.0 0 0 0 0.
Proof. repeat split. Qed.

(** ** C4: configuration updates *)

(** C4, as stated, fails: a configuration with [BMAX <= BMIN] and a
    negative weight replaces the default one. *)
Lemma malformed_config_is_installed :
  BMAX asr_malformed_config <= BMIN asr_malformed_config /\
  (WQ asr_malformed_config < 0)%Q /\
  ASR_GetConfig (ASR_Init asr_static) = asr_default_config /\
  ASR_GetConfig
    (ASR_UpdateConfig (Some asr_malformed_config) (ASR_Init asr_static))
    = asr_malformed_config /\
  asr_malformed_config <> asr_default_config.
Proof.
  split; [cbn; lia|]. split; [reflexivity|]. split; [reflexivity|].
  split; [reflexivity|]. discriminate.
Qed.

(** C4, amended.  [ASR_UpdateConfig] rejects only a null pointer, which
    leaves the state as it is.  Any configuration it is given, malformed
    or not, becomes the configuration observed afterwards; the metrics
    are not touched. *)
Theorem update_config_installs_any_config (s : ASRState) :
  ASR_UpdateConfig None s = s /\
  forall c : ASRConfig,
    ASR_GetConfig (ASR_UpdateConfig (Some c) s) = c /\
    asr_metrics (ASR_UpdateConfig (Some c) s) = asr_metrics s.
Proof. split; [reflexivity|]. intro c. split; reflexivity. Qed.

(** ** C5: the budget stays within its bounds *)

(** C5.  From [ASR_Init], on whatever state it is called and whether or
    not the master switch is then turned on, every sequence of ingest
    calls and controller ticks is defined and ends in a state whose budget
    bounds are those of the default configuration, 10 and 2000, and whose
    published budget lies between them. *)
Theorem budget_within_bounds_after_init (s0 : ASRState) (enabled : bool)
  (evs : list event) :
  let start :=
    if enabled
    then ASR_UpdateConfig (Some asr_enabled_config) (ASR_Init s0)
    else ASR_Init s0 in
  exists s : ASRState,
    run evs start = Some s /\
    BMIN (asr_config s) = 10 /\
    BMAX (asr_config s) = 2000 /\
    BMIN (asr_config s) <= ASR_GetCurrentBudget s <= BMAX (asr_config s).
Proof.
  cbv zeta.
  destruct enabled.
  - destruct (run_keeps_bounds evs
                (ASR_UpdateConfig (Some asr_enabled_config) (ASR_Init s0)))
      as (s & H & Hc & Hb).
    + exact enabled_config_bounds_ok.
    + unfold budget_in_bounds. cbn. lia.
    + exists s. rewrite Hc. cbn. repeat split; try assumption.
      * unfold budget_in_bounds in Hb. rewrite Hc in Hb. apply Hb.
      * unfold budget_in_bounds in Hb. rewrite Hc in Hb. apply Hb.
  - destruct (run_keeps_bounds evs (ASR_Init s0)) as (s & H & Hc & Hb).
    + exact default_config_bounds_ok.
    + unfold budget_in_bounds. cbn. lia.
    + exists s. rewrite Hc. cbn. repeat split; try assumption.
      * unfold budget_in_bounds in Hb. rewrite Hc in Hb. apply Hb.
      * unfold budget_in_bounds in Hb. rewrite Hc in Hb. apply Hb.
Qed.

(** ** C6: the step limit on the aggressiveness *)

(** C6, as stated, fails: [|A_k - A_(k-1)| <= max_step] does not hold on
    every tick.  First, [ASR_UpdateConfig] installs a negative [MAX_STEP]
    unchecked; the test of line 321 then succeeds on every tick, and the
    first tick from rest, with no load, moves the stored aggressiveness
    from 0 to 0.2 against [MAX_STEP = -0.2].  Second, under the default
    configuration the sum of line 324 is rounded: in binary64, the tick
    after 100 MiB of WAL stores 0.1, the next, after a million replay
    tasks, computes the weighted aggressiveness 0.4 and stores
    [0.1 + 0.2 = 0.30000000000000004], and the change between the two
    stored values exceeds [MAX_STEP = 0.2]. *)
Lemma aggressiveness_step_exceeds_max_step :
  (asr_update_smoothed_metrics 1 asr_negative_step
     = Some after_negative_step_tick /\
   (MAX_STEP (asr_config asr_negative_step) == - 0.2)%Q /\
   (current_aggressiveness (asr_metrics asr_negative_step) == 0)%Q /\
   (current_aggressiveness (asr_metrics after_negative_step_tick) == 0.2)%Q /\
   ~ (Qabs (current_aggressiveness (asr_metrics after_negative_step_tick) -
            current_aggressiveness (asr_metrics asr_negative_step))
      <= MAX_STEP (asr_config asr_negative_step))%Q) /\
  (current_aggressiveness_b64 after_wal_tick_b64 = 0.1%float /\
   current_aggressiveness_b64 after_tasks_tick_b64
     = 0.30000000000000004%float /\
   (MAX_STEP_b64 asr_default_config_b64 <?
    PrimFloat.abs (current_aggressiveness_b64 after_tasks_tick_b64 -
                   current_aggressiveness_b64 after_wal_tick_b64))%float
   = true).
Proof.
  split.
  - split; [vm_compute; reflexivity|].
    split; [reflexivity|]. split; [reflexivity|].
    split; [vm_compute; reflexivity|].
    vm_compute. intro H. apply H. reflexivity.
  - vm_compute. repeat split.
Qed.

(** C6, amended.  On every tick, with [A] the weighted aggressiveness of
    the tick and [agg_prev] the aggressiveness stored by the previous
    one: if the test [fabs(A - agg_prev) > MAX_STEP] of line 321
    succeeds, the stored aggressiveness [A_k] is the sum
    [agg_prev + MAX_STEP] when [A] is above [agg_prev] and the difference
    [agg_prev - MAX_STEP] otherwise, each as the source evaluates it; if
    the test fails, [A_k] is [A].  With [MAX_STEP >= 0] the stored value
    is never farther from [agg_prev] than [A] is. *)
Theorem aggressiveness_step_snaps_by_max_step (now : Z) (s s' : ASRState) :
  asr_update_smoothed_metrics now s = Some s' ->
  let max_step := MAX_STEP (asr_config s) in
  let agg_prev := current_aggressiveness (asr_metrics s) in
  let A := tick_weighted_aggressiveness (asr_config s) (asr_metrics s') in
  let A_k := current_aggressiveness (asr_metrics s') in
  ((max_step < Qabs (A - agg_prev))%Q ->
   ((agg_prev < A)%Q -> A_k = (agg_prev + max_step)%Q) /\
   ((A <= agg_prev)%Q -> A_k = (agg_prev - max_step)%Q)) /\
  ((Qabs (A - agg_prev) <= max_step)%Q -> A_k = A) /\
  ((0 <= max_step)%Q ->
   (Qabs (A_k - agg_prev) <= Qabs (A - agg_prev))%Q).
Proof.
  intro H. cbv zeta.
  rewrite (tick_stored_aggressiveness now s s' H).
  apply tick_step_limit_cases.
Qed.

(** The tick after the burst is defined. *)
Lemma burst_tick :
  asr_update_smoothed_metrics 1 asr_burst = Some after_burst_tick.
Proof. vm_compute. reflexivity. Defined.

Lemma aggressiveness_step_snaps_by_max_step_witness :
  asr_update_smoothed_metrics 1 asr_burst = Some after_burst_tick /\
  (MAX_STEP (asr_config asr_burst) <
   Qabs (tick_weighted_aggressiveness (asr_config asr_burst)
           (asr_metrics after_burst_tick) -
         current_aggressiveness (asr_metrics asr_burst)))%Q /\
  (current_aggressiveness (asr_metrics asr_burst) <
   tick_weighted_aggressiveness (asr_config asr_burst)
     (asr_metrics after_burst_tick))%Q /\
  current_aggressiveness (asr_metrics after_burst_tick) =
  (current_aggressiveness (asr_metrics asr_burst) +
   MAX_STEP (asr_config asr_burst))%Q.
Proof.
  assert (Hfar : (MAX_STEP (asr_config asr_burst) <
                  Qabs (tick_weighted_aggressiveness (asr_config asr_burst)
                          (asr_metrics after_burst_tick) -
                        current_aggressiveness (asr_metrics asr_burst)))%Q)
    by (vm_compute; reflexivity).
  assert (Habove : (current_aggressiveness (asr_metrics asr_burst) <
                    tick_weighted_aggressiveness (asr_config asr_burst)
                      (asr_metrics after_burst_tick))%Q)
    by (vm_compute; reflexivity).
  split; [exact burst_tick|]. split; [exact Hfar|]. split; [exact Habove|].
  exact (proj1 (proj1 (aggressiveness_step_snaps_by_max_step 1 asr_burst
                         after_burst_tick burst_tick) Hfar) Habove).
Defined.

(** ** C7: hysteresis on the published budget *)



(** ** C8: the EWMA rule and its weight *)

(** C8, as stated, fails: the weight is not read from the configuration.
    For the weight 0.5, a legal [ewma_alpha], the update of 0 with the
    sample 1 would be 0.5; [ewma_update] yields 0.3. *)
Lemma ewma_weight_is_not_configurable :
  ~ (forall ewma_alpha x_ewma x_raw : double,
       (0 < ewma_alpha <= 1)%Q ->
       (ewma_update x_ewma x_raw == spec_ewma ewma_alpha x_ewma x_raw)%Q).
Proof.
  intro H. specialize (H 0.5%Q 0%Q 1%Q).
  assert (Hr : (0 < 0.5 <= 1)%Q) by lra.
  specialize (H Hr). vm_compute in H. discriminate H.
Qed.

(** C8, amended.  On every tick each of the three smoothed metrics is
    updated by [x_ewma <- alpha * x_raw + (1 - alpha) * x_ewma] from the
    sample the tick has formed for it, where [alpha] is the constant
    [EWMA_ALPHA] = 0.3 of the source; [ASRConfig] has no field for it. *)
Theorem ewma_rule_with_fixed_weight (now : Z) (s s' : ASRState) :
  asr_update_smoothed_metrics now s = Some s' ->
  let m := asr_metrics s in
  let m' := asr_metrics s' in
  EWMA_ALPHA = 0.3%Q /\
  (queue_ewma m' ==
   spec_ewma EWMA_ALPHA (queue_ewma m) (tick_new_queue now m))%Q /\
  (miss_rate_ewma m' ==
   spec_ewma EWMA_ALPHA (miss_rate_ewma m) (tick_new_miss_rate m))%Q /\
  (wal_bps_ewma m' ==
   spec_ewma EWMA_ALPHA (wal_bps_ewma m) (tick_new_wal_bps now m))%Q.
Proof.
  intro H. apply tick_fields in H. cbv zeta in H.
  destruct H as (_ & Hq & Hm & Hw & _).
  cbv zeta. rewrite Hq, Hm, Hw.
  split; [reflexivity|].
  repeat split; apply ewma_update_rule.
Qed.

Lemma ewma_rule_with_fixed_weight_witness :
  asr_update_smoothed_metrics 1 asr_burst = Some after_burst_tick /\
  (queue_ewma (asr_metrics after_burst_tick) ==
   spec_ewma EWMA_ALPHA (queue_ewma (asr_metrics asr_burst))
     (tick_new_queue 1 (asr_metrics asr_burst)))%Q.
Proof.
  split; [exact burst_tick|].
  exact (proj1 (proj2 (ewma_rule_with_fixed_weight 1 asr_burst
                         after_burst_tick burst_tick))).
Defined.

(** ** C9: blocking of the hot-path calls *)

(** Run alone, with the mutex free, the actions of each call have the
    effect of the call. *)
Lemma actions_agree_with_calls (s : ASRState) (count bytes budget r : Z) :
  let free := (mkWorld s None, r) in
  exec_actions CallerThread (ASR_RecordReplayTask_actions count s) free
    = Some (mkWorld (ASR_RecordReplayTask count s) None, r) /\
  exec_actions CallerThread (ASR_RecordHotMiss_actions s) free
    = Some (mkWorld (ASR_RecordHotMiss s) None, r) /\
  exec_actions CallerThread (ASR_RecordWalIngest_actions bytes s) free
    = Some (mkWorld (ASR_RecordWalIngest bytes s) None, r) /\
  exec_actions CallerThread ASR_GetCurrentBudget_actions free
    = Some (mkWorld s None, ASR_GetCurrentBudget s) /\
  exec_actions CallerThread (ASR_SetBudget_actions budget) free
    = Some (mkWorld (ASR_SetBudget budget s) None, r).
Proof.
  cbv zeta.
  unfold ASR_RecordReplayTask_actions, ASR_RecordReplayTask,
    ASR_RecordHotMiss_actions, ASR_RecordHotMiss,
    ASR_RecordWalIngest_actions, ASR_RecordWalIngest.
  destruct (negb (enable_adaptive_sr (asr_config s))),
    (count <=? 0), (bytes =? 0); cbn [orb]; repeat split.
Qed.

(** C9, as stated, fails: [ASR_GetCurrentBudget] and [ASR_SetBudget] start
    by locking [asr_metrics.metrics_lock].  While the controller is inside
    the critical section of its tick, a caller of either cannot proceed. *)
Lemma get_budget_waits_for_the_tick :
  controller_enters_tick asr_enabled = Some tick_in_progress /\
  exec_actions CallerThread ASR_GetCurrentBudget_actions tick_in_progress
    = None /\
  exec_actions CallerThread (ASR_SetBudget_actions 100) tick_in_progress
    = None.
Proof. repeat split. Qed.

(** C9, amended.  The three ingest calls take no lock: whoever holds the
    mutex, each completes, as a read of the enabled flag followed by at
    most one atomic fetch-and-add, with the effect of the call.
    [ASR_GetCurrentBudget] and [ASR_SetBudget] lock the metrics mutex
    around a plain read or write of the budget: they complete when the
    mutex is free and wait while any thread holds it. *)
Theorem ingest_never_waits_budget_cell_locks (w : world) (t : thread)
  (count bytes budget r : Z) :
  (exists w1 w2 w3 : world,
     exec_actions t (ASR_RecordReplayTask_actions count (memory w)) (w, r)
       = Some (w1, r) /\
     exec_actions t (ASR_RecordHotMiss_actions (memory w)) (w, r)
       = Some (w2, r) /\
     exec_actions t (ASR_RecordWalIngest_actions bytes (memory w)) (w, r)
       = Some (w3, r) /\
     memory w1 = ASR_RecordReplayTask count (memory w) /\
     memory w2 = ASR_RecordHotMiss (memory w) /\
     memory w3 = ASR_RecordWalIngest bytes (memory w)) /\
  exec_actions t ASR_GetCurrentBudget_actions (w, r) =
    match metrics_lock w with
    | None =>
        Some (mkWorld (memory w) None, ASR_GetCurrentBudget (memory w))
    | Some _ => None
    end /\
  exec_actions t (ASR_SetBudget_actions budget) (w, r) =
    match metrics_lock w with
    | None => Some (mkWorld (ASR_SetBudget budget (memory w)) None, r)
    | Some _ => None
    end.
Proof.
  destruct w as [s l]. cbn [memory metrics_lock]. split; [|split].
  - unfold ASR_RecordReplayTask_actions, ASR_RecordReplayTask,
      ASR_RecordHotMiss_actions, ASR_RecordHotMiss,
      ASR_RecordWalIngest_actions, ASR_RecordWalIngest.
    destruct (negb (enable_adaptive_sr (asr_config s))),
      (count <=? 0), (bytes =? 0); cbn [orb];
      do 3 eexists; repeat split.
  - destruct l; reflexivity.
  - destruct l; reflexivity.
Qed.

(** ** C10: ingest of nothing *)

(** C10.  Whatever the configuration, [ASR_RecordReplayTask] with
    [count <= 0] and [ASR_RecordWalIngest] with [bytes = 0] return the
    state they were given. *)
Theorem ingest_of_nothing_is_noop (s : ASRState) (count : Z) :
  count <= 0 ->
  ASR_RecordReplayTask count s = s /\ ASR_RecordWalIngest 0 s = s.
Proof.
  intro H. unfold ASR_RecordReplayTask, ASR_RecordWalIngest.
  destruct (Z.leb_spec count 0) as [_|Hgt]; [|lia].
  rewrite Z.eqb_refl, !orb_true_r. split; reflexivity.
Qed.

Lemma ingest_of_nothing_is_noop_witness :
  -3 <= 0 /\
  enable_adaptive_sr (asr_config asr_enabled) = true /\
  ASR_RecordReplayTask (-3) asr_enabled = asr_enabled /\
  ASR_RecordWalIngest 0 asr_enabled = asr_enabled.
Proof.
  assert (H : -3 <= 0) by lia.
  split; [exact H|]. split; [reflexivity|].
  exact (ingest_of_nothing_is_noop asr_enabled (-3) H).
Defined.

(** * Further properties *)

(** ** Pressures *)

Lemma pressure_ratio_le (raw expected c : Q) :
  (0 < expected)%Q ->
  (raw / expected <= c)%Q <-> (raw <= c * expected)%Q.
Proof.
  intro H. split; intro H1.
  - assert (E : (raw == (raw / expected) * expected)%Q).
    { field. lra. }
    rewrite E. apply Qmult_le_compat_r; lra.
  - apply Qle_shift_div_r; assumption.
Qed.

Lemma pressure_ratio_lt (raw expected c : Q) :
  (0 < expected)%Q ->
  (c < raw / expected)%Q <-> (c * expected < raw)%Q.
Proof.
  intro H. split; intro H1.
  - apply Qnot_le_lt. intro H2. apply (pressure_ratio_le _ _ c H) in H2. lra.
  - apply Qnot_le_lt. intro H2. apply (pressure_ratio_le _ _ c H) in H2. lra.
Qed.

Lemma compute_pressure_cases (raw expected : double) :
  (0 < expected)%Q ->
  let p := compute_pressure raw expected in
  (0 <= p <= 1)%Q /\
  ((p == 0)%Q <-> (raw <= expected)%Q) /\
  ((p == 1)%Q <-> (2 * expected <= raw)%Q) /\
  ((expected < raw)%Q -> (raw < 2 * expected)%Q ->
   (p == raw / expected - 1)%Q).
Proof.
  intro He. cbv zeta. unfold compute_pressure.
  destruct (dle raw expected) eqn:E1.
  - apply dle_true in E1.
    split; [lra|]. split; [split; intro; [exact E1|reflexivity]|].
    split; [|intros; lra].
    split; intro H; [discriminate H|lra].
  - assert (Hgt : (expected < raw)%Q).
    { apply Qnot_le_lt. intro H. apply dle_true in H. congruence. }
    assert (Hr : (1 < raw / expected)%Q).
    { apply pressure_ratio_lt; lra. }
    cbv zeta.
    destruct (dgt (raw / expected - 1.0) 1.0) eqn:E2.
    + apply dgt_true in E2.
      assert (H2 : (2 < raw / expected)%Q) by lra.
      apply pressure_ratio_lt in H2; [|exact He].
      split; [lra|]. split; [split; intro H; [discriminate H|lra]|].
      split; [split; intro; [lra|reflexivity]|intros; lra].
    + apply dgt_false in E2.
      assert (H2 : (raw / expected <= 2)%Q) by lra.
      apply pressure_ratio_le in H2; [|exact He].
      split; [lra|]. split; [split; intro H; lra|].
      split; [|intros; lra].
      split; intro H.
      * apply Qnot_lt_le. intro H4.
        assert (H5 : (raw / expected < 2)%Q).
        { apply Qnot_le_lt. intro H6.
          apply pressure_ratio_le in H2; [|exact He].
          assert (H7 : (2 * expected <= raw)%Q).
          { assert (E : (raw == (raw / expected) * expected)%Q)
              by (field; lra).
            rewrite E. apply Qmult_le_compat_r; lra. }
          lra. }
        lra.
      * assert (H3 : (raw == 2 * expected)%Q) by lra.
        rewrite H3. field. lra.
Qed.

(** X1.  For a positive reference level, [compute_pressure] lies in
    [0, 1]; it is 0 exactly when the raw value is at or below the
    reference, 1 exactly when it is at or above twice the reference, and
    [raw / expected - 1] in between. *)
Theorem compute_pressure_range (raw expected : double) :
  (0 < expected)%Q ->
  let p := compute_pressure raw expected in
  (0 <= p <= 1)%Q /\
  ((p == 0)%Q <-> (raw <= expected)%Q) /\
  ((p == 1)%Q <-> (2 * expected <= raw)%Q) /\
  ((expected < raw)%Q -> (raw < 2 * expected)%Q ->
   (p == raw / expected - 1)%Q).
Proof. exact (compute_pressure_cases raw expected). Qed.

Lemma compute_pressure_range_witness :
  (0 < 100)%Q /\ (100 < 150)%Q /\ (150 < 2 * 100)%Q /\
  (compute_pressure 150 100 == 150 / 100 - 1)%Q.
Proof.
  assert (H0 : (0 < 100)%Q) by reflexivity.
  assert (H1 : (100 < 150)%Q) by reflexivity.
  assert (H2 : (150 < 2 * 100)%Q) by reflexivity.
  split; [exact H0|]. split; [exact H1|]. split; [exact H2|].
  exact (proj2 (proj2 (proj2 (compute_pressure_range 150 100 H0))) H1 H2).
Defined.

Lemma ratio_monotone (a b expected : Q) :
  (0 < expected)%Q -> (a <= b)%Q -> (a / expected <= b / expected)%Q.
Proof.
  intros He H. unfold Qdiv. apply Qmult_le_compat_r; [exact H|].
  apply Qlt_le_weak. apply Qinv_lt_0_compat. exact He.
Qed.

(** X2.  For a positive reference level, [compute_pressure] does not
    decrease when the raw value grows. *)
Theorem compute_pressure_monotone (raw1 raw2 expected : double) :
  (0 < expected)%Q ->
  (raw1 <= raw2)%Q ->
  (compute_pressure raw1 expected <= compute_pressure raw2 expected)%Q.
Proof.
  intros He H.
  destruct (compute_pressure_cases raw1 expected He) as (R1 & Z1 & O1 & M1).
  destruct (compute_pressure_cases raw2 expected He) as (R2 & Z2 & O2 & M2).
  destruct (Qlt_le_dec expected raw1) as [G1|L1].
  - destruct (Qlt_le_dec raw2 (2 * expected)) as [G2|L2].
    + rewrite M1, M2 by lra.
      pose proof (ratio_monotone raw1 raw2 expected He H). lra.
    + apply O2 in L2. lra.
  - apply Z1 in L1. lra.
Qed.

Lemma compute_pressure_monotone_witness :
  (0 < 100)%Q /\ (120 <= 150)%Q /\
  (compute_pressure 120 100 <= compute_pressure 150 100)%Q.
Proof.
  assert (H0 : (0 < 100)%Q) by reflexivity.
  assert (H1 : (120 <= 150)%Q) by (vm_compute; discriminate).
  split; [exact H0|]. split; [exact H1|].
  exact (compute_pressure_monotone 120 150 100 H0 H1).
Defined.

(** ** The map from aggressiveness to budget *)

Lemma clamp_aggressiveness_spec (A : double) :
  let c := clamp_aggressiveness A in
  (0 <= c <= 1)%Q /\
  ((A <= 0)%Q -> (c == 0)%Q) /\
  ((1 <= A)%Q -> (c == 1)%Q) /\
  ((0 <= A <= 1)%Q -> (c == A)%Q).
Proof.
  cbv zeta. unfold clamp_aggressiveness. cbv zeta.
  destruct (dlt A 0.0%Q) eqn:E1.
  - apply dlt_true in E1.
    destruct (dgt 0.0%Q 1.0%Q) eqn:E2.
    + apply dgt_true in E2. lra.
    + repeat split; intros; lra.
  - apply dlt_false in E1.
    destruct (dgt A 1.0%Q) eqn:E2.
    + apply dgt_true in E2. repeat split; intros; lra.
    + apply dgt_false in E2. repeat split; intros; lra.
Qed.

Lemma clamp_aggressiveness_monotone (A1 A2 : double) :
  (A1 <= A2)%Q ->
  (clamp_aggressiveness A1 <= clamp_aggressiveness A2)%Q.
Proof.
  intro H.
  destruct (clamp_aggressiveness_spec A1) as (R1 & Z1 & O1 & I1).
  destruct (clamp_aggressiveness_spec A2) as (R2 & Z2 & O2 & I2).
  destruct (Qlt_le_dec A1 0) as [N1|P1].
  - rewrite Z1 by lra. lra.
  - destruct (Qlt_le_dec 1 A2) as [G2|L2].
    + rewrite (O2 (Qlt_le_weak _ _ G2)). lra.
    + rewrite I1, I2 by lra. exact H.
Qed.

Lemma budget_from_aggressiveness_value (A : double) (cfg : ASRConfig) :
  budget_from_aggressiveness A cfg =
  (span <- int_sub (BMAX cfg) (BMIN cfg) ;;
   int_of_floor
     (double_of_Z (BMIN cfg) + clamp_aggressiveness A * double_of_Z span)%Q).
Proof. reflexivity. Qed.

Lemma scaled_span_between (lo hi : Z) (c : Q) :
  (0 <= c <= 1)%Q ->
  let x := (inject_Z lo + c * inject_Z (hi - lo))%Q in
  Z.min lo hi <= Qfloor x <= Z.max lo hi.
Proof.
  intros Hc x.
  assert (Hd : (inject_Z (hi - lo) == inject_Z hi - inject_Z lo)%Q).
  { unfold Zminus. rewrite inject_Z_plus, inject_Z_opp. reflexivity. }
  destruct (Z_le_gt_dec lo hi) as [Hle|Hgt].
  - assert (Hs : (inject_Z lo <= inject_Z hi)%Q) by (rewrite <- Zle_Qle; lia).
    assert (Hx : (inject_Z lo <= x <= inject_Z hi)%Q).
    { subst x. rewrite Hd. split; nra. }
    destruct Hx as [H1 H2]. apply Qfloor_resp_le in H1, H2.
    rewrite Qfloor_Z in H1, H2. lia.
  - assert (Hs : (inject_Z hi <= inject_Z lo)%Q) by (rewrite <- Zle_Qle; lia).
    assert (Hx : (inject_Z hi <= x <= inject_Z lo)%Q).
    { subst x. rewrite Hd. split; nra. }
    destruct Hx as [H1 H2]. apply Qfloor_resp_le in H1, H2.
    rewrite Qfloor_Z in H1, H2. lia.
Qed.

Lemma default_config_int_safe : cfg_int_safe asr_default_config.
Proof. unfold cfg_int_safe, INT_MIN, INT_MAX. cbn. lia. Defined.

Lemma budget_from_aggressiveness_number (A : double) (cfg : ASRConfig) :
  cfg_int_safe cfg ->
  exists B : Z,
    budget_from_aggressiveness A cfg = Some B /\
    Z.min (BMIN cfg) (BMAX cfg) <= B <= Z.max (BMIN cfg) (BMAX cfg) /\
    ((A <= 0)%Q -> B = BMIN cfg) /\
    ((1 <= A)%Q -> B = BMAX cfg).
Proof.
  intros (Hmin & Hmax & Hspan).
  rewrite budget_from_aggressiveness_value.
  unfold int_sub. rewrite to_int_some by exact Hspan. cbn [bind].
  unfold int_of_floor, double_of_Z.
  destruct (clamp_aggressiveness_spec A) as (Hc & Hz & Ho & _).
  pose proof (scaled_span_between (BMIN cfg) (BMAX cfg)
                (clamp_aggressiveness A) Hc) as Hb. cbv zeta in Hb.
  eexists. split; [apply to_int_some; lia|]. split; [exact Hb|]. split.
  - intro H. rewrite (Qfloor_comp _ (inject_Z (BMIN cfg))).
    + apply Qfloor_Z.
    + rewrite (Hz H). ring.
  - intro H. rewrite (Qfloor_comp _ (inject_Z (BMAX cfg))).
    + apply Qfloor_Z.
    + rewrite (Ho H). unfold Zminus.
      rewrite inject_Z_plus, inject_Z_opp. ring.
Qed.

(** X3.  When both bounds and their difference fit an [int],
    [budget_from_aggressiveness] is defined for every argument that is
    not a NaN, and its result lies between the two bounds, in whichever
    order they are; it is [BMIN] for a number [A <= 0] and for minus
    infinity, [BMAX] for a number [A >= 1] and for plus infinity.  For a
    NaN it is undefined. *)
Theorem budget_from_aggressiveness_between_bounds (A : double_arg)
  (cfg : ASRConfig) :
  cfg_int_safe cfg ->
  (A <> NaN ->
   exists B : Z,
     budget_from_aggressiveness_arg A cfg = Some B /\
     Z.min (BMIN cfg) (BMAX cfg) <= B <= Z.max (BMIN cfg) (BMAX cfg)) /\
  (forall x : double,
     (x <= 0)%Q ->
     budget_from_aggressiveness_arg (Number x) cfg = Some (BMIN cfg)) /\
  (forall x : double,
     (1 <= x)%Q ->
     budget_from_aggressiveness_arg (Number x) cfg = Some (BMAX cfg)) /\
  budget_from_aggressiveness_arg MinusInfinity cfg = Some (BMIN cfg) /\
  budget_from_aggressiveness_arg PlusInfinity cfg = Some (BMAX cfg) /\
  budget_from_aggressiveness_arg NaN cfg = None.
Proof.
  intro Hcfg.
  assert (Hlow : forall x : double,
             (x <= 0)%Q ->
             budget_from_aggressiveness x cfg = Some (BMIN cfg)).
  { intros x Hx.
    destruct (budget_from_aggressiveness_number x cfg Hcfg)
      as (B & HB & _ & Hz & _).
    rewrite HB, (Hz Hx). reflexivity. }
  assert (Hhigh : forall x : double,
             (1 <= x)%Q ->
             budget_from_aggressiveness x cfg = Some (BMAX cfg)).
  { intros x Hx.
    destruct (budget_from_aggressiveness_number x cfg Hcfg)
      as (B & HB & _ & _ & Ho).
    rewrite HB, (Ho Hx). reflexivity. }
  split; [|split; [|split; [|split; [|split]]]].
  - intro Hnan.
    destruct A as [x| | |]; cbn [budget_from_aggressiveness_arg].
    + destruct (budget_from_aggressiveness_number x cfg Hcfg)
        as (B & HB & Hr & _).
      exists B. split; assumption.
    + exists (BMAX cfg). split; [apply Hhigh; lra|lia].
    + exists (BMIN cfg). split; [apply Hlow; lra|lia].
    + contradiction Hnan. reflexivity.
  - intros x Hx. apply Hlow. exact Hx.
  - intros x Hx. apply Hhigh. exact Hx.
  - apply Hlow. lra.
  - apply Hhigh. lra.
  - reflexivity.
Qed.

Lemma budget_from_aggressiveness_between_bounds_witness :
  cfg_int_safe asr_default_config /\
  Number 0.6 <> NaN /\
  exists B : Z,
    budget_from_aggressiveness_arg (Number 0.6) asr_default_config
      = Some B /\
    Z.min 10 2000 <= B <= Z.max 10 2000.
Proof.
  assert (Hnum : Number 0.6 <> NaN) by discriminate.
  split; [exact default_config_int_safe|]. split; [exact Hnum|].
  exact (proj1 (budget_from_aggressiveness_between_bounds (Number 0.6)
                  asr_default_config default_config_int_safe) Hnum).
Defined.

(** X4.  With [BMIN <= BMAX], a larger aggressiveness never maps to a
    smaller budget. *)
Theorem budget_from_aggressiveness_monotone (A1 A2 : double)
  (cfg : ASRConfig) (B1 B2 : Z) :
  BMIN cfg <= BMAX cfg ->
  (A1 <= A2)%Q ->
  budget_from_aggressiveness A1 cfg = Some B1 ->
  budget_from_aggressiveness A2 cfg = Some B2 ->
  B1 <= B2.
Proof.
  intros Hle HA. rewrite !budget_from_aggressiveness_value.
  unfold int_sub. destruct (to_int (BMAX cfg - BMIN cfg)) as [span|] eqn:E;
    [|discriminate].
  apply to_int_inv in E. destruct E as [-> _]. cbn [bind].
  unfold int_of_floor, double_of_Z. intros H1 H2.
  apply to_int_inv in H1, H2. destruct H1 as [-> _], H2 as [-> _].
  apply Qfloor_resp_le.
  pose proof (clamp_aggressiveness_monotone A1 A2 HA) as Hm.
  assert (Hs : (0 <= inject_Z (BMAX cfg - BMIN cfg))%Q).
  { change 0%Q with (inject_Z 0). rewrite <- Zle_Qle. lia. }
  nra.
Qed.

Lemma budget_from_aggressiveness_monotone_witness :
  BMIN asr_default_config <= BMAX asr_default_config /\
  (0.2 <= 0.6)%Q /\
  budget_from_aggressiveness 0.2 asr_default_config = Some 408 /\
  budget_from_aggressiveness 0.6 asr_default_config = Some 1204 /\
  408 <= 1204.
Proof.
  assert (H0 : BMIN asr_default_config <= BMAX asr_default_config)
    by (vm_compute; discriminate).
  assert (H1 : (0.2 <= 0.6)%Q) by (vm_compute; discriminate).
  assert (H2 : budget_from_aggressiveness 0.2 asr_default_config = Some 408)
    by (vm_compute; reflexivity).
  assert (H3 : budget_from_aggressiveness 0.6 asr_default_config = Some 1204)
    by (vm_compute; reflexivity).
  split; [exact H0|]. split; [exact H1|]. split; [exact H2|].
  split; [exact H3|].
  exact (budget_from_aggressiveness_monotone 0.2 0.6 asr_default_config
           408 1204 H0 H1 H2 H3).
Defined.

(** ** Smoothing *)

(** X5.  [ewma_update] is nondecreasing in the old value and in the new
    sample: a larger sample, or a larger smoothed value before, never
    gives a smaller smoothed value. *)
Theorem ewma_update_monotone (old1 old2 new1 new2 : double) :
  (old1 <= old2)%Q ->
  (new1 <= new2)%Q ->
  (ewma_update old1 new1 <= ewma_update old2 new2)%Q.
Proof. unfold ewma_update, EWMA_ALPHA. intros H1 H2. lra. Qed.

Lemma ewma_update_monotone_witness :
  (0 <= 15)%Q /\ (1000 <= 300000)%Q /\
  (ewma_update 0 1000 <= ewma_update 15 300000)%Q.
Proof.
  assert (H1 : (0 <= 15)%Q) by (vm_compute; discriminate).
  assert (H2 : (1000 <= 300000)%Q) by (vm_compute; discriminate).
  split; [exact H1|]. split; [exact H2|].
  exact (ewma_update_monotone 0 15 1000 300000 H1 H2).
Defined.

Lemma tick_dt_pos (now : Z) (m : ASRMetricsInternal) :
  (0.1 <= tick_dt now m)%Q.
Proof.
  unfold tick_dt. cbv zeta.
  destruct (dlt _ 0.1%Q) eqn:E; [lra|]. apply dlt_false in E. exact E.
Qed.

Lemma uint64_sub_range (a b : Z) : 0 <= uint64_sub a b < UINT64_MODULUS.
Proof. unfold uint64_sub. apply Z.mod_pos_bound. reflexivity. Qed.

Lemma rate_nonneg (delta : Z) (dt : Q) :
  0 <= delta -> (0 < dt)%Q -> (0 <= double_of_Z delta / dt)%Q.
Proof.
  intros Hd Hdt. unfold double_of_Z.
  apply Qle_shift_div_l; [exact Hdt|].
  assert (H : (0 <= inject_Z delta)%Q).
  { change 0%Q with (inject_Z 0). rewrite <- Zle_Qle. exact Hd. }
  lra.
Qed.

Lemma tick_new_queue_nonneg (now : Z) (m : ASRMetricsInternal) :
  (0 <= tick_new_queue now m)%Q.
Proof.
  unfold tick_new_queue. cbv zeta.
  pose proof (tick_dt_pos now m) as Hdt.
  destruct (dgt (tick_dt now m) 0%Q); [|lra].
  apply rate_nonneg; [apply uint64_sub_range|lra].
Qed.

Lemma tick_new_wal_bps_nonneg (now : Z) (m : ASRMetricsInternal) :
  (0 <= tick_new_wal_bps now m)%Q.
Proof.
  unfold tick_new_wal_bps. cbv zeta.
  pose proof (tick_dt_pos now m) as Hdt.
  destruct (dgt (tick_dt now m) 0%Q); [|lra].
  apply rate_nonneg; [apply uint64_sub_range|lra].
Qed.

Lemma ewma_update_nonneg (old_val new_val : double) :
  (0 <= old_val)%Q -> (0 <= new_val)%Q ->
  (0 <= ewma_update old_val new_val)%Q.
Proof. unfold ewma_update, EWMA_ALPHA. intros; lra. Qed.

Lemma tick_keeps_ewmas_nonneg (now : Z) (s s' : ASRState) :
  ewmas_nonneg (asr_metrics s) ->
  asr_update_smoothed_metrics now s = Some s' ->
  ewmas_nonneg (asr_metrics s').
Proof.
  intros (Hq & Hm & Hw) H. apply tick_fields in H. cbv zeta in H.
  destruct H as (_ & Eq & Em & Ew & _).
  unfold ewmas_nonneg. rewrite Eq, Em, Ew, tick_new_miss_rate_zero.
  repeat split; apply ewma_update_nonneg;
    auto using tick_new_queue_nonneg, tick_new_wal_bps_nonneg.
  lra.
Qed.

Lemma controller_fields_ewmas (s s' : ASRState) :
  controller_fields s' = controller_fields s ->
  ewmas_nonneg (asr_metrics s) -> ewmas_nonneg (asr_metrics s').
Proof.
  unfold controller_fields, ewmas_nonneg. intro H. injection H.
  intros. intuition congruence.
Qed.

(** The run of the burst from the narrowed configuration is defined. *)
Lemma narrow_burst_run : run burst_events asr_narrow = Some after_narrow_burst.
Proof. vm_compute. reflexivity. Defined.

(** X6.  Nonnegative smoothed metrics stay nonnegative: no sequence of
    ingest calls and ticks makes [queue_ewma], [miss_rate_ewma] or
    [wal_bps_ewma] negative. *)
Theorem smoothed_metrics_stay_nonnegative (evs : list event) :
  forall s s' : ASRState,
    ewmas_nonneg (asr_metrics s) ->
    run evs s = Some s' ->
    ewmas_nonneg (asr_metrics s').
Proof.
  induction evs as [|e evs IH]; intros s s' Hs Hrun.
  - cbn in Hrun. injection Hrun as <-. exact Hs.
  - cbn [run] in Hrun.
    destruct (apply_event e s) as [s1|] eqn:E; [|discriminate].
    cbn [bind] in Hrun. apply (IH s1 s'); [|exact Hrun].
    destruct e as [count| |bytes|now]; cbn [apply_event] in E.
    + injection E as <-.
      apply (controller_fields_ewmas s); [|exact Hs].
      apply ASR_RecordReplayTask_frame.
    + injection E as <-.
      apply (controller_fields_ewmas s); [|exact Hs].
      apply ASR_RecordHotMiss_frame.
    + injection E as <-.
      apply (controller_fields_ewmas s); [|exact Hs].
      apply ASR_RecordWalIngest_frame.
    + exact (tick_keeps_ewmas_nonneg now s s1 Hs E).
Qed.

Lemma smoothed_metrics_stay_nonnegative_witness :
  ewmas_nonneg (asr_metrics asr_narrow) /\
  run burst_events asr_narrow = Some after_narrow_burst /\
  ewmas_nonneg (asr_metrics after_narrow_burst).
Proof.
  assert (H : ewmas_nonneg (asr_metrics asr_narrow)).
  { vm_compute. repeat split; discriminate. }
  split; [exact H|]. split; [exact narrow_burst_run|].
  exact (smoothed_metrics_stay_nonnegative burst_events asr_narrow
           after_narrow_burst H narrow_burst_run).
Defined.

(** ** Aggressiveness *)










(** ** Time, snapshots and counters *)

(** X10.  The interval a tick divides by is never below 0.1 s: it is 1 s
    on the first tick ([last_measurement = 0]), 0.1 s when the clock
    reading has not advanced past the previous tick's, and the whole
    number of seconds between the two readings otherwise. *)
Theorem tick_interval_cases (now : Z) (m : ASRMetricsInternal) :
  (0.1 <= tick_dt now m)%Q /\
  (last_measurement m = 0 -> (tick_dt now m == 1)%Q) /\
  (last_measurement m <> 0 -> now <= last_measurement m ->
   (tick_dt now m == 0.1)%Q) /\
  (last_measurement m <> 0 -> last_measurement m < now ->
   (tick_dt now m == inject_Z (now - last_measurement m))%Q).
Proof.
  split; [apply tick_dt_pos|].
  unfold tick_dt, double_of_Z. cbv zeta.
  destruct (Z.eqb_spec (last_measurement m) 0) as [E|E].
  - split; [intros _|split; intros; contradiction].
    destruct (dlt 1.0%Q 0.1%Q) eqn:E1; [apply dlt_true in E1|]; lra.
  - split; [intros; contradiction|].
    split; intros _ H.
    + assert (Hq : (inject_Z (now - last_measurement m) <= 0)%Q).
      { change 0%Q with (inject_Z 0). rewrite <- Zle_Qle. lia. }
      destruct (dlt _ 0.1%Q) eqn:E1; [reflexivity|].
      apply dlt_false in E1. lra.
    + assert (Hq : (1 <= inject_Z (now - last_measurement m))%Q).
      { change 1%Q with (inject_Z 1). rewrite <- Zle_Qle. lia. }
      destruct (dlt _ 0.1%Q) eqn:E1; [|reflexivity].
      apply dlt_true in E1. lra.
Qed.

Lemma tick_interval_cases_witness :
  last_measurement (asr_metrics after_burst_tick) <> 0 /\
  1 <= last_measurement (asr_metrics after_burst_tick) /\
  (tick_dt 1 (asr_metrics after_burst_tick) == 0.1)%Q.
Proof.
  assert (H0 : last_measurement (asr_metrics after_burst_tick) <> 0)
    by (vm_compute; discriminate).
  assert (H1 : 1 <= last_measurement (asr_metrics after_burst_tick))
    by (vm_compute; discriminate).
  split; [exact H0|]. split; [exact H1|].
  exact (proj1 (proj2 (proj2
           (tick_interval_cases 1 (asr_metrics after_burst_tick)))) H0 H1).
Defined.

Lemma tick_frame_fields (now : Z) (s s' : ASRState) :
  asr_update_smoothed_metrics now s = Some s' ->
  let m := asr_metrics s in
  let m' := asr_metrics s' in
  asr_config s' = asr_config s /\
  asr_shutdown_requested s' = asr_shutdown_requested s /\
  asr_controller_tid s' = asr_controller_tid s /\
  replay_tasks_count m' = replay_tasks_count m /\
  hot_misses m' = hot_misses m /\
  wal_bytes_received m' = wal_bytes_received m /\
  last_total_tasks m' = replay_tasks_count m /\
  last_total_misses m' = hot_misses m /\
  last_wal_bytes m' = wal_bytes_received m /\
  last_measurement m' = now.
Proof.
  intro H. apply tick_inv in H. destruct H as (B & b & _ & _ & ->).
  cbv zeta. state_fields. repeat split.
Qed.

(** X11.  A tick never writes the configuration, the lifecycle flags or
    the three raw counters; afterwards the three counter snapshots equal
    the counters and [last_measurement] is the clock reading of the
    tick. *)
Theorem tick_leaves_counters_and_takes_snapshots (now : Z)
  (s s' : ASRState) :
  asr_update_smoothed_metrics now s = Some s' ->
  let m := asr_metrics s in
  let m' := asr_metrics s' in
  asr_config s' = asr_config s /\
  asr_shutdown_requested s' = asr_shutdown_requested s /\
  asr_controller_tid s' = asr_controller_tid s /\
  replay_tasks_count m' = replay_tasks_count m /\
  hot_misses m' = hot_misses m /\
  wal_bytes_received m' = wal_bytes_received m /\
  last_total_tasks m' = replay_tasks_count m' /\
  last_total_misses m' = hot_misses m' /\
  last_wal_bytes m' = wal_bytes_received m' /\
  last_measurement m' = now.
Proof.
  intro H. apply tick_frame_fields in H. cbv zeta in H. cbv zeta.
  destruct H as (H1 & H2 & H3 & H4 & H5 & H6 & H7 & H8 & H9 & H10).
  repeat split; congruence.
Qed.

Lemma tick_leaves_counters_and_takes_snapshots_witness :
  asr_update_smoothed_metrics 1 asr_burst = Some after_burst_tick /\
  replay_tasks_count (asr_metrics after_burst_tick) =
    replay_tasks_count (asr_metrics asr_burst) /\
  last_total_tasks (asr_metrics after_burst_tick) =
    replay_tasks_count (asr_metrics after_burst_tick).
Proof.
  split; [exact burst_tick|].
  pose proof (tick_leaves_counters_and_takes_snapshots 1 asr_burst
                after_burst_tick burst_tick) as H.
  cbv zeta in H.
  destruct H as (_ & _ & _ & H4 & _ & _ & H7 & _).
  split; [exact H4|exact H7].
Defined.

Lemma uint64_sub_diag (a : Z) : uint64_sub a a = 0.
Proof. unfold uint64_sub. rewrite Z.sub_diag. reflexivity. Qed.

Lemma zero_rate (dt : Q) :
  ((if dgt dt 0 then double_of_Z 0 / dt else 0.0) == 0)%Q.
Proof.
  destruct (dgt dt 0%Q); [|reflexivity].
  unfold double_of_Z, Qdiv. change (inject_Z 0) with 0%Q. ring.
Qed.

(** The second tick after the burst is defined. *)
Lemma burst_second_tick :
  asr_update_smoothed_metrics 2 after_burst_tick
  = Some after_burst_second_tick.
Proof. vm_compute. reflexivity. Defined.

(** X12.  A tick that follows a tick with no ingest call in between sees
    zero deltas, whatever the two clock readings: each of the three
    smoothed metrics becomes 0.7 times its value. *)
Theorem back_to_back_ticks_decay (now1 now2 : Z) (s s1 s2 : ASRState) :
  asr_update_smoothed_metrics now1 s = Some s1 ->
  asr_update_smoothed_metrics now2 s1 = Some s2 ->
  (queue_ewma (asr_metrics s2) == 0.7 * queue_ewma (asr_metrics s1))%Q /\
  (miss_rate_ewma (asr_metrics s2) ==
   0.7 * miss_rate_ewma (asr_metrics s1))%Q /\
  (wal_bps_ewma (asr_metrics s2) == 0.7 * wal_bps_ewma (asr_metrics s1))%Q.
Proof.
  intros H1 H2.
  apply tick_frame_fields in H1. cbv zeta in H1.
  destruct H1 as (_ & _ & _ & Ct & Cm & Cw & Lt & Lm & Lw & _).
  apply tick_fields in H2. cbv zeta in H2.
  destruct H2 as (_ & Eq & Em & Ew & _).
  rewrite Eq, Em, Ew, tick_new_miss_rate_zero.
  unfold tick_new_queue, tick_new_wal_bps. cbv zeta.
  rewrite Lt, Lw, <- Ct, <- Cw, !uint64_sub_diag.
  pose proof (zero_rate (tick_dt now2 (asr_metrics s1))) as Hz.
  unfold ewma_update, EWMA_ALPHA.
  repeat split.
  - rewrite Hz. lra.
  - lra.
  - rewrite Hz. lra.
Qed.

Lemma back_to_back_ticks_decay_witness :
  asr_update_smoothed_metrics 1 asr_burst = Some after_burst_tick /\
  asr_update_smoothed_metrics 2 after_burst_tick
    = Some after_burst_second_tick /\
  (queue_ewma (asr_metrics after_burst_second_tick) ==
   0.7 * queue_ewma (asr_metrics after_burst_tick))%Q.
Proof.
  split; [exact burst_tick|]. split; [exact burst_second_tick|].
  exact (proj1 (back_to_back_ticks_decay 1 2 asr_burst after_burst_tick
                  after_burst_second_tick burst_tick burst_second_tick)).
Defined.

Lemma uint64_add_assoc (c a b : Z) :
  uint64_add (uint64_add c a) b = uint64_add c (a + b).
Proof.
  unfold uint64_add. rewrite Zplus_mod_idemp_l. f_equal. ring.
Qed.

Lemma uint64_add_mod_r (c a : Z) :
  uint64_add c (uint64_of_Z a) = uint64_add c a.
Proof. unfold uint64_add, uint64_of_Z. apply Zplus_mod_idemp_r. Qed.

Lemma uint64_add_comm_r (c a b : Z) :
  uint64_add (uint64_add c a) b = uint64_add (uint64_add c b) a.
Proof. rewrite !uint64_add_assoc. f_equal. ring. Qed.

Lemma record_replay_tasks_counter (counts : list Z) :
  forall s : ASRState,
    enable_adaptive_sr (asr_config s) = true ->
    Forall (fun count => 0 < count) counts ->
    asr_config (record_replay_tasks counts s) = asr_config s /\
    controller_fields (record_replay_tasks counts s) = controller_fields s /\
    uint64_add
      (replay_tasks_count (asr_metrics (record_replay_tasks counts s))) 0 =
    uint64_add (replay_tasks_count (asr_metrics s))
      (fold_right Z.add 0 counts).
Proof.
  induction counts as [|c counts IH]; intros s Hon Hpos.
  - cbn. auto.
  - inversion Hpos as [|? ? Hc Hrest]; subst.
    cbn [record_replay_tasks fold_left fold_right].
    change (fold_left (fun s0 count => ASR_RecordReplayTask count s0) counts
              (ASR_RecordReplayTask c s))
      with (record_replay_tasks counts (ASR_RecordReplayTask c s)).
    assert (E : ASR_RecordReplayTask c s =
                set_asr_metrics
                  (set_replay_tasks_count
                     (uint64_add (replay_tasks_count (asr_metrics s))
                        (uint64_of_Z c)) (asr_metrics s)) s).
    { unfold ASR_RecordReplayTask. rewrite Hon.
      destruct (Z.leb_spec c 0); [lia|]. reflexivity. }
    destruct (IH (ASR_RecordReplayTask c s)) as (I1 & I2 & I3).
    { rewrite E. exact Hon. }
    { exact Hrest. }
    rewrite I1, I2, I3. rewrite E.
    repeat split.
    cbn. rewrite uint64_add_mod_r, uint64_add_assoc. reflexivity.
Qed.

(** X13.  While enabled, after calls of [ASR_RecordReplayTask] with
    positive counts on a state whose snapshot equals the counter, the
    delta the next tick forms is the sum of the counts modulo 2^64, also
    when the counter wraps around on the way. *)
Theorem recorded_tasks_are_the_observed_delta (counts : list Z)
  (s : ASRState) :
  enable_adaptive_sr (asr_config s) = true ->
  Forall (fun count => 0 < count) counts ->
  last_total_tasks (asr_metrics s) = replay_tasks_count (asr_metrics s) ->
  let s' := record_replay_tasks counts s in
  uint64_sub (replay_tasks_count (asr_metrics s'))
    (last_total_tasks (asr_metrics s'))
  = (fold_right Z.add 0 counts) mod UINT64_MODULUS.
Proof.
  intros Hon Hpos Hsnap. cbv zeta.
  destruct (record_replay_tasks_counter counts s Hon Hpos)
    as (_ & Hf & Hc).
  assert (Hl : last_total_tasks (asr_metrics (record_replay_tasks counts s))
               = last_total_tasks (asr_metrics s)).
  { unfold controller_fields in Hf. injection Hf. auto. }
  rewrite Hl, Hsnap. unfold uint64_sub, uint64_add in *.
  rewrite Z.add_0_r in Hc.
  rewrite <- Zminus_mod_idemp_l, Hc, Zminus_mod_idemp_l.
  f_equal. ring.
Qed.

Lemma recorded_tasks_are_the_observed_delta_witness :
  enable_adaptive_sr (asr_config after_burst_tick) = true /\
  Forall (fun count => 0 < count) [3; 4] /\
  last_total_tasks (asr_metrics after_burst_tick) =
    replay_tasks_count (asr_metrics after_burst_tick) /\
  uint64_sub
    (replay_tasks_count
       (asr_metrics (record_replay_tasks [3; 4] after_burst_tick)))
    (last_total_tasks
       (asr_metrics (record_replay_tasks [3; 4] after_burst_tick)))
  = (fold_right Z.add 0 [3; 4]) mod UINT64_MODULUS.
Proof.
  assert (H0 : enable_adaptive_sr (asr_config after_burst_tick) = true)
    by (vm_compute; reflexivity).
  assert (H1 : Forall (fun count => 0 < count) [3; 4]).
  { repeat constructor. }
  assert (H2 : last_total_tasks (asr_metrics after_burst_tick) =
               replay_tasks_count (asr_metrics after_burst_tick))
    by (vm_compute; reflexivity).
  split; [exact H0|]. split; [exact H1|]. split; [exact H2|].
  exact (recorded_tasks_are_the_observed_delta [3; 4] after_burst_tick
           H0 H1 H2).
Defined.

Lemma replay_task_commutes (s : ASRState) (c1 c2 : Z) :
  ASR_RecordReplayTask c1 (ASR_RecordReplayTask c2 s) =
  ASR_RecordReplayTask c2 (ASR_RecordReplayTask c1 s).
Proof. ingest_cases s uint64_add_comm_r. Qed.

Lemma wal_ingest_commutes (s : ASRState) (b1 b2 : Z) :
  ASR_RecordWalIngest b1 (ASR_RecordWalIngest b2 s) =
  ASR_RecordWalIngest b2 (ASR_RecordWalIngest b1 s).
Proof. ingest_cases s uint64_add_comm_r. Qed.

Lemma hot_miss_replay_task_commute (s : ASRState) (c1 : Z) :
  ASR_RecordHotMiss (ASR_RecordReplayTask c1 s) =
  ASR_RecordReplayTask c1 (ASR_RecordHotMiss s).
Proof. ingest_cases s uint64_add_comm_r. Qed.

Lemma hot_miss_wal_ingest_commute (s : ASRState) (b1 : Z) :
  ASR_RecordHotMiss (ASR_RecordWalIngest b1 s) =
  ASR_RecordWalIngest b1 (ASR_RecordHotMiss s).
Proof. ingest_cases s uint64_add_comm_r. Qed.

Lemma wal_ingest_replay_task_commute (s : ASRState) (c1 b1 : Z) :
  ASR_RecordWalIngest b1 (ASR_RecordReplayTask c1 s) =
  ASR_RecordReplayTask c1 (ASR_RecordWalIngest b1 s).
Proof. ingest_cases s uint64_add_comm_r. Qed.

(** X14.  Ingest calls commute: two calls, of the same kind or of
    different kinds and with any arguments, leave the same state in
    either order. *)
Theorem ingest_calls_commute (s : ASRState) (c1 c2 b1 b2 : Z) :
  ASR_RecordReplayTask c1 (ASR_RecordReplayTask c2 s) =
    ASR_RecordReplayTask c2 (ASR_RecordReplayTask c1 s) /\
  ASR_RecordWalIngest b1 (ASR_RecordWalIngest b2 s) =
    ASR_RecordWalIngest b2 (ASR_RecordWalIngest b1 s) /\
  ASR_RecordHotMiss (ASR_RecordReplayTask c1 s) =
    ASR_RecordReplayTask c1 (ASR_RecordHotMiss s) /\
  ASR_RecordHotMiss (ASR_RecordWalIngest b1 s) =
    ASR_RecordWalIngest b1 (ASR_RecordHotMiss s) /\
  ASR_RecordWalIngest b1 (ASR_RecordReplayTask c1 s) =
    ASR_RecordReplayTask c1 (ASR_RecordWalIngest b1 s).
Proof.
  auto using replay_task_commutes, wal_ingest_commutes,
    hot_miss_replay_task_commute, hot_miss_wal_ingest_commute,
    wal_ingest_replay_task_commute.
Qed.

(** ** Observers, forced budgets and the lifecycle *)

Lemma controller_fields_snapshot (s s' : ASRState) :
  controller_fields s' = controller_fields s ->
  ASR_ReadMetrics s' = ASR_ReadMetrics s.
Proof.
  unfold controller_fields, ASR_ReadMetrics. intro H. injection H.
  intros. cbv zeta. congruence.
Qed.

(** X15.  What an observer reads changes only at ticks: a run of ingest
    calls, however long, leaves the snapshot of [ASR_ReadMetrics] and the
    budget of [ASR_GetCurrentBudget] as they were. *)
Theorem snapshot_changes_only_at_ticks (evs : list event) :
  forall s s' : ASRState,
    forallb (fun e => negb (is_tick e)) evs = true ->
    run evs s = Some s' ->
    ASR_ReadMetrics s' = ASR_ReadMetrics s /\
    ASR_GetCurrentBudget s' = ASR_GetCurrentBudget s.
Proof.
  induction evs as [|e evs IH]; intros s s' Hno Hrun.
  - cbn in Hrun. injection Hrun as <-. auto.
  - cbn [forallb] in Hno. apply andb_true_iff in Hno.
    destruct Hno as [He Hrest].
    cbn [run] in Hrun.
    destruct (apply_event e s) as [s1|] eqn:E; [|discriminate].
    cbn [bind] in Hrun.
    destruct (IH s1 s' Hrest Hrun) as [I1 I2]. rewrite I1, I2.
    assert (Hf : controller_fields s1 = controller_fields s).
    { destruct e as [count| |bytes|now]; cbn [apply_event] in E;
        try (injection E as <-).
      - apply ASR_RecordReplayTask_frame.
      - apply ASR_RecordHotMiss_frame.
      - apply ASR_RecordWalIngest_frame.
      - discriminate He. }
    split.
    + apply controller_fields_snapshot. exact Hf.
    + apply controller_fields_budget. exact Hf.
Qed.

Lemma snapshot_changes_only_at_ticks_witness :
  forallb (fun e => negb (is_tick e))
    [EvRecordReplayTask 1000000; EvRecordWalIngest (100 * 1024 * 1024)]
  = true /\
  run [EvRecordReplayTask 1000000; EvRecordWalIngest (100 * 1024 * 1024)]
    asr_enabled = Some asr_burst /\
  ASR_ReadMetrics asr_burst = ASR_ReadMetrics asr_enabled.
Proof.
  assert (H0 : forallb (fun e => negb (is_tick e))
                 [EvRecordReplayTask 1000000;
                  EvRecordWalIngest (100 * 1024 * 1024)] = true)
    by reflexivity.
  assert (H1 : run [EvRecordReplayTask 1000000;
                    EvRecordWalIngest (100 * 1024 * 1024)] asr_enabled
               = Some asr_burst) by reflexivity.
  split; [exact H0|]. split; [exact H1|].
  exact (proj1 (snapshot_changes_only_at_ticks _ asr_enabled asr_burst
                  H0 H1)).
Defined.

(** A tick from any budget is defined when the distance of the budget to
    the bounds fits an [int]. *)
Lemma tick_from_any_budget (now : Z) (s : ASRState) :
  cfg_bounds_ok (asr_config s) ->
  INT_MIN < BMIN (asr_config s) - ASR_GetCurrentBudget s ->
  BMAX (asr_config s) - ASR_GetCurrentBudget s <= INT_MAX ->
  exists (s' : ASRState) (B : Z),
    asr_update_smoothed_metrics now s = Some s' /\
    BMIN (asr_config s) <= B <= BMAX (asr_config s) /\
    (Z.abs (B - ASR_GetCurrentBudget s) < HYST (asr_config s) ->
     ASR_GetCurrentBudget s' = ASR_GetCurrentBudget s) /\
    (HYST (asr_config s) <= Z.abs (B - ASR_GetCurrentBudget s) ->
     ASR_GetCurrentBudget s' = B).
Proof.
  intros Hcfg Hlo Hhi. unfold ASR_GetCurrentBudget in *.
  destruct (budget_from_aggressiveness_bounds (tick_aggressiveness now s)
              _ Hcfg) as (B & HB & HBr).
  destruct (tick_hysteresis_total (asr_config s)
              (current_budget (asr_metrics s)) B) as (b & Hb').
  { unfold cfg_bounds_ok in Hcfg. lia. }
  rewrite tick_phases. cbv zeta. rewrite HB. cbn [bind].
  change (current_budget (tick_smooth now (asr_metrics s)))
    with (current_budget (asr_metrics s)).
  rewrite Hb'. cbn [bind]. eexists. exists B. split; [reflexivity|].
  split; [exact HBr|].
  destruct (tick_hysteresis_inv _ _ _ _ Hb') as [H1 H2].
  cbn. split; assumption.
Qed.

Lemma enabled_config_references_positive :
  cfg_references_positive (asr_config asr_enabled).
Proof. repeat split. Defined.

(** X16.  Under a configuration with positive reference levels and
    usable bounds, a budget forced by [ASR_SetBudget] to a value at least
    [HYST] below [BMIN] or at least [HYST] above [BMAX] is brought back
    between the bounds by the next tick. *)
Theorem tick_recovers_budget_set_outside (now budget : Z) (s : ASRState) :
  cfg_references_positive (asr_config s) ->
  cfg_bounds_ok (asr_config s) ->
  INT_MIN < BMIN (asr_config s) - budget ->
  BMAX (asr_config s) - budget <= INT_MAX ->
  budget <= BMIN (asr_config s) - HYST (asr_config s) \/
  BMAX (asr_config s) + HYST (asr_config s) <= budget ->
  exists s' : ASRState,
    asr_update_smoothed_metrics now (ASR_SetBudget budget s) = Some s' /\
    BMIN (asr_config s) <= ASR_GetCurrentBudget s' <= BMAX (asr_config s).
Proof.
  intros _ Hcfg Hlo Hhi Hfar.
  destruct (tick_from_any_budget now (ASR_SetBudget budget s))
    as (s' & B & Htick & HB & _ & Hpub); try assumption.
  change (asr_config (ASR_SetBudget budget s)) with (asr_config s)
    in HB, Hpub.
  change (ASR_GetCurrentBudget (ASR_SetBudget budget s)) with budget
    in Hpub.
  exists s'. split; [exact Htick|].
  rewrite Hpub; [exact HB|]. lia.
Qed.

Lemma tick_recovers_budget_set_outside_witness :
  cfg_references_positive (asr_config asr_enabled) /\
  cfg_bounds_ok (asr_config asr_enabled) /\
  INT_MIN < BMIN (asr_config asr_enabled) - 5000 /\
  BMAX (asr_config asr_enabled) - 5000 <= INT_MAX /\
  (5000 <= BMIN (asr_config asr_enabled) - HYST (asr_config asr_enabled) \/
   BMAX (asr_config asr_enabled) + HYST (asr_config asr_enabled) <= 5000) /\
  exists s' : ASRState,
    asr_update_smoothed_metrics 1 (ASR_SetBudget 5000 asr_enabled)
      = Some s' /\
    BMIN (asr_config asr_enabled) <= ASR_GetCurrentBudget s'
      <= BMAX (asr_config asr_enabled).
Proof.
  assert (H0 : cfg_bounds_ok (asr_config asr_enabled))
    by exact enabled_config_bounds_ok.
  assert (H1 : INT_MIN < BMIN (asr_config asr_enabled) - 5000)
    by reflexivity.
  assert (H2 : BMAX (asr_config asr_enabled) - 5000 <= INT_MAX)
    by (vm_compute; discriminate).
  assert (H3 : 5000 <= BMIN (asr_config asr_enabled)
                       - HYST (asr_config asr_enabled) \/
               BMAX (asr_config asr_enabled)
               + HYST (asr_config asr_enabled) <= 5000).
  { right. vm_compute. discriminate. }
  split; [exact enabled_config_references_positive|].
  split; [exact H0|]. split; [exact H1|]. split; [exact H2|].
  split; [exact H3|].
  exact (tick_recovers_budget_set_outside 1 5000 asr_enabled
           enabled_config_references_positive H0 H1 H2 H3).
Defined.

(** X17.  [ASR_Shutdown] ends the controller loop at its next test and
    clears the thread handle, without touching configuration or metrics,
    and a second call changes nothing.  A later [ASR_StartController]
    whose [pthread_create] succeeds stores a handle and makes the cycles
    run again when the subsystem is enabled; while disabled the call
    does nothing. *)
Theorem shutdown_stops_the_controller (s : ASRState) (now : Z) :
  let s1 := ASR_Shutdown s in
  asr_controller_cycle now s1 = None /\
  asr_controller_tid s1 = false /\
  asr_config s1 = asr_config s /\
  asr_metrics s1 = asr_metrics s /\
  ASR_Shutdown s1 = s1 /\
  (enable_adaptive_sr (asr_config s) = true ->
   let s2 := ASR_StartController true s1 in
   asr_controller_tid s2 = true /\
   asr_controller_cycle now s2 = asr_update_smoothed_metrics now s2 /\
   asr_config s2 = asr_config s /\
   asr_metrics s2 = asr_metrics s) /\
  (enable_adaptive_sr (asr_config s) = false ->
   forall spawned : bool, ASR_StartController spawned s1 = s1).
Proof.
  cbv zeta. destruct s as [cfg m sd tid].
  unfold ASR_Shutdown, ASR_StartController, asr_controller_cycle.
  cbn. destruct tid; cbn; repeat split; intros;
    match goal with
    | H : enable_adaptive_sr _ = _ |- _ => rewrite H
    end; cbn; reflexivity.
Qed.

Lemma shutdown_stops_the_controller_witness :
  enable_adaptive_sr (asr_config asr_disabled_while_running) = false /\
  asr_controller_cycle 1 (ASR_Shutdown asr_disabled_while_running) = None /\
  ASR_StartController true (ASR_Shutdown asr_disabled_while_running)
  = ASR_Shutdown asr_disabled_while_running.
Proof.
  assert (H0 : enable_adaptive_sr (asr_config asr_disabled_while_running)
               = false) by reflexivity.
  pose proof (shutdown_stops_the_controller asr_disabled_while_running 1)
    as H.
  cbv zeta in H. destruct H as (H1 & _ & _ & _ & _ & _ & H7).
  split; [exact H0|]. split; [exact H1|]. exact (H7 H0 true).
Defined.

(** X18.  For every configuration with positive reference levels whose
    bounds are ordered [int]s with an [int] difference, not only the
    default one: from a budget between the bounds, every sequence of
    ingest calls and ticks is defined, keeps the configuration and keeps
    the budget between the bounds. *)
Theorem budget_bounds_hold_for_any_usable_config (evs : list event)
  (s : ASRState) :
  cfg_references_positive (asr_config s) ->
  cfg_bounds_ok (asr_config s) ->
  BMIN (asr_config s) <= ASR_GetCurrentBudget s <= BMAX (asr_config s) ->
  exists s' : ASRState,
    run evs s = Some s' /\
    asr_config s' = asr_config s /\
    BMIN (asr_config s) <= ASR_GetCurrentBudget s' <= BMAX (asr_config s).
Proof.
  intros _ Hcfg Hb.
  destruct (run_keeps_bounds evs s Hcfg Hb) as (s' & Hrun & Hc & Hb').
  exists s'. split; [exact Hrun|]. split; [exact Hc|].
  unfold budget_in_bounds in Hb'. rewrite Hc in Hb'. exact Hb'.
Qed.

Lemma narrow_config_bounds_ok : cfg_bounds_ok (asr_config asr_narrow).
Proof. unfold cfg_bounds_ok, INT_MIN, INT_MAX. cbn. lia. Defined.

Lemma narrow_config_references_positive :
  cfg_references_positive (asr_config asr_narrow).
Proof. repeat split. Defined.

Lemma budget_bounds_hold_for_any_usable_config_witness :
  cfg_references_positive (asr_config asr_narrow) /\
  cfg_bounds_ok (asr_config asr_narrow) /\
  BMIN (asr_config asr_narrow) <= ASR_GetCurrentBudget asr_narrow
    <= BMAX (asr_config asr_narrow) /\
  exists s' : ASRState,
    run burst_events asr_narrow = Some s' /\
    asr_config s' = asr_config asr_narrow /\
    BMIN (asr_config asr_narrow) <= ASR_GetCurrentBudget s'
      <= BMAX (asr_config asr_narrow).
Proof.
  assert (H : BMIN (asr_config asr_narrow) <= ASR_GetCurrentBudget asr_narrow
              <= BMAX (asr_config asr_narrow)).
  { split; vm_compute; discriminate. }
  split; [exact narrow_config_references_positive|].
  split; [exact narrow_config_bounds_ok|]. split; [exact H|].
  exact (budget_bounds_hold_for_any_usable_config burst_events asr_narrow
           narrow_config_references_positive narrow_config_bounds_ok H).
Defined.

(** X19.  [ASR_Init] is idempotent and discards whatever configuration
    was installed before it; of two updates the later one decides; and
    an update never moves the published budget. *)
Theorem init_and_update_config_compose (s : ASRState)
  (c1 c2 : ASRConfig) :
  ASR_Init (ASR_Init s) = ASR_Init s /\
  ASR_Init (ASR_UpdateConfig (Some c1) s) = ASR_Init s /\
  ASR_UpdateConfig (Some c2) (ASR_UpdateConfig (Some c1) s) =
    ASR_UpdateConfig (Some c2) s /\
  ASR_GetCurrentBudget (ASR_UpdateConfig (Some c1) s) =
    ASR_GetCurrentBudget s.
Proof. destruct s as [cfg m sd tid]. repeat split. Qed.

(** X20.  With a negative [MAX_STEP], which [ASR_UpdateConfig] accepts,
    the step limit fires whatever the target is, and what it stores is
    [prev + MAX_STEP], not above [prev], when the target is above
    [prev], and [prev - MAX_STEP], not below [prev], when the target is
    at or below [prev]: the aggressiveness never moves towards the
    target. *)
Theorem negative_max_step_moves_away (cfg : ASRConfig) (prev agg : double) :
  (MAX_STEP cfg < 0)%Q ->
  let A' := tick_step_limit cfg prev agg in
  ((prev < agg)%Q -> A' = (prev + MAX_STEP cfg)%Q /\ (A' <= prev)%Q) /\
  ((agg <= prev)%Q -> A' = (prev - MAX_STEP cfg)%Q /\ (prev <= A')%Q).
Proof.
  intro HM. cbv zeta. unfold tick_step_limit, fabs. cbv zeta.
  assert (E : dgt (Qabs (agg - prev)) (MAX_STEP cfg) = true).
  { apply dgt_true. pose proof (Qabs_nonneg (agg - prev)). lra. }
  rewrite E.
  destruct (dgt (agg - prev) 0%Q) eqn:E2.
  - apply dgt_true in E2. split; intro H; [|lra].
    split; [reflexivity|lra].
  - apply dgt_false in E2. split; intro H; [lra|].
    split; [reflexivity|lra].
Qed.

Lemma negative_max_step_moves_away_witness :
  (MAX_STEP asr_negative_step_config < 0)%Q /\
  (0 < 1)%Q /\
  tick_step_limit asr_negative_step_config 0 1 = (0 + - 0.2)%Q.
Proof.
  assert (H0 : (MAX_STEP asr_negative_step_config < 0)%Q) by reflexivity.
  assert (H1 : (0 < 1)%Q) by reflexivity.
  split; [exact H0|]. split; [exact H1|].
  exact (proj1 (proj1 (negative_max_step_moves_away
                         asr_negative_step_config 0 1 H0) H1)).
Defined.

(** ** The configuration lock *)

Lemma without_wrlock_keeps (s' : ASRState) (w w' : locked) :
  without_wrlock s' w = Returns w' ->
  asr_state w' = s' /\ config_readers w' = config_readers w.
Proof.
  unfold without_wrlock. intro H. injection H as <-. split; reflexivity.
Qed.

(** While a read lock is held, a call that returns leaves the
    configuration as it was and the read lock held. *)
Lemma do_call_under_read_lock (c : api_call) (w w' : locked) :
  (0 < config_readers w)%nat ->
  do_call c w = Returns w' ->
  asr_config (asr_state w') = asr_config (asr_state w) /\
  (0 < config_readers w')%nat.
Proof.
  intros Hr H.
  destruct c as [|spawned| | |[new_config|]|count| |bytes| |budget| |now];
    cbn [do_call] in H.
  - unfold with_wrlock in H.
    destruct (config_readers w); [lia|discriminate].
  - apply without_wrlock_keeps in H. destruct H as [-> ->].
    split; [|exact Hr].
    unfold ASR_StartController.
    destruct (negb (enable_adaptive_sr (asr_config (asr_state w))));
      [reflexivity|].
    destruct spawned; reflexivity.
  - apply without_wrlock_keeps in H. destruct H as [-> ->].
    split; [|exact Hr].
    unfold ASR_Shutdown.
    destruct (asr_controller_tid
                (set_asr_shutdown_requested true (asr_state w)));
      reflexivity.
  - injection H as <-. cbn. split; [reflexivity|lia].
  - unfold with_wrlock in H.
    destruct (config_readers w); [lia|discriminate].
  - injection H as <-. split; [reflexivity|exact Hr].
  - apply without_wrlock_keeps in H. destruct H as [-> ->].
    split; [apply ASR_RecordReplayTask_frame|exact Hr].
  - apply without_wrlock_keeps in H. destruct H as [-> ->].
    split; [apply ASR_RecordHotMiss_frame|exact Hr].
  - apply without_wrlock_keeps in H. destruct H as [-> ->].
    split; [apply ASR_RecordWalIngest_frame|exact Hr].
  - injection H as <-. split; [reflexivity|exact Hr].
  - apply without_wrlock_keeps in H. destruct H as [-> ->].
    split; [reflexivity|exact Hr].
  - injection H as <-. split; [reflexivity|exact Hr].
  - destruct (asr_update_smoothed_metrics now (asr_state w)) as [s'|] eqn:E;
      [|discriminate].
    apply without_wrlock_keeps in H. destruct H as [-> ->].
    split; [|exact Hr]. apply tick_fields in E. apply E.
Qed.

Lemma do_calls_under_read_lock (cs : list api_call) :
  forall w w' : locked,
    (0 < config_readers w)%nat ->
    do_calls cs w = Returns w' ->
    asr_config (asr_state w') = asr_config (asr_state w) /\
    (0 < config_readers w')%nat.
Proof.
  induction cs as [|c cs IH]; intros w w' Hr H.
  - cbn in H. injection H as <-. split; [reflexivity|exact Hr].
  - cbn [do_calls] in H.
    destruct (do_call c w) as [w1| |] eqn:E; try discriminate.
    destruct (do_call_under_read_lock c w w1 Hr E) as [Hc Hr1].
    destruct (IH w1 w' Hr1 H) as [Hc' Hr'].
    split; [congruence|exact Hr'].
Qed.

(** X23.  The read lock that [ASR_GetConfig] takes is never released:
    after a call of [ASR_GetConfig], whatever calls of the module and
    ticks of the controller follow and return, the configuration is
    still the one [ASR_GetConfig] saw, and [ASR_Init] and
    [ASR_UpdateConfig] with a configuration wait for the write lock. *)
Theorem get_config_keeps_the_read_lock (cs : list api_call)
  (w w' : locked) :
  do_calls (CallGetConfig :: cs) w = Returns w' ->
  asr_config (asr_state w') = ASR_GetConfig (asr_state w) /\
  do_call CallInit w' = Waits /\
  (forall new_config : ASRConfig,
     do_call (CallUpdateConfig (Some new_config)) w' = Waits).
Proof.
  intro H. cbn [do_calls do_call] in H.
  destruct (do_calls_under_read_lock cs
              (mkLocked (asr_state w) (S (config_readers w))) w'
              (Nat.lt_0_succ _) H) as [Hc Hr].
  cbn [asr_state] in Hc. unfold ASR_GetConfig.
  split; [exact Hc|].
  assert (Hw : forall f, with_wrlock f w' = Waits).
  { intro f. unfold with_wrlock.
    destruct (config_readers w'); [lia|reflexivity]. }
  split; [apply Hw|]. intro new_config. apply Hw.
Qed.

Lemma get_config_keeps_the_read_lock_witness :
  do_calls calls_after_get_config (mkLocked asr_enabled 0)
    = Returns after_get_config /\
  asr_config (asr_state after_get_config) = asr_enabled_config /\
  do_call (CallUpdateConfig (Some asr_default_config)) after_get_config
    = Waits.
Proof.
  assert (H : do_calls calls_after_get_config (mkLocked asr_enabled 0)
              = Returns after_get_config) by (vm_compute; reflexivity).
  pose proof (get_config_keeps_the_read_lock _ _ _ H) as (H1 & _ & H3).
  split; [exact H|]. split; [exact H1|]. exact (H3 asr_default_config).
Defined.

(** ** The budgeted replay loop *)

Lemma ApplyXlogUntil_loop_spec {R Rec P : Type} (x : XLogReader R Rec P)
  (lsn replay_budget : Z) (fuel : nat) :
  forall st : replay_state R Rec P,
    replay_budget - records_replayed st - 1 <= Z.of_nat fuel ->
    exists (st' : replay_state R Rec P) (new : list Rec),
      ApplyXlogUntil_loop x fuel lsn replay_budget st = Some st' /\
      loop_extends x lsn replay_budget st st' new /\
      records_replayed st' <=
        Z.max (records_replayed st + 1) replay_budget.
Proof.
  induction fuel as [|fuel IH]; intros st Hfuel.
  - cbn [ApplyXlogUntil_loop].
    destruct (Z.ltb_spec (EndRecPtr x (reader_state st)) lsn) as [Hlt|Hge].
    + destruct (XLogReadRecord x (reader_state st)) as [[record reader']|]
        eqn:Hread.
      * cbv zeta. cbn [records_replayed].
        destruct (Z.geb_spec (records_replayed st + 1) replay_budget)
          as [Hb|Hb]; [|lia].
        eexists. exists [record]. split; [reflexivity|].
        split; [|cbn; lia].
        unfold loop_extends. cbn. rewrite Hread.
        repeat split. left. split; [discriminate|lia].
      * exists st, []. split; [reflexivity|]. split; [|lia].
        unfold loop_extends. cbn. rewrite Z.add_0_r. repeat split. auto.
    + exists st, []. split; [reflexivity|]. split; [|lia].
      unfold loop_extends. cbn. rewrite Z.add_0_r. repeat split. auto.
  - cbn [ApplyXlogUntil_loop].
    destruct (Z.ltb_spec (EndRecPtr x (reader_state st)) lsn) as [Hlt|Hge].
    + destruct (XLogReadRecord x (reader_state st)) as [[record reader']|]
        eqn:Hread.
      * cbv zeta. cbn [records_replayed].
        destruct (Z.geb_spec (records_replayed st + 1) replay_budget)
          as [Hb|Hb].
        -- eexists. exists [record]. split; [reflexivity|].
           split; [|cbn; lia].
           unfold loop_extends. cbn. rewrite Hread.
           repeat split. left. split; [discriminate|lia].
        -- destruct (IH (mkReplayState reader'
                           (rm_redo x record (pages st))
                           (ASR_RecordReplayTask 1 (asr st))
                           (records_replayed st + 1)
                           (record :: replayed st)))
             as (st' & new & Hrun & Hext & Hle).
           { cbn. lia. }
           exists st', (record :: new). split; [exact Hrun|].
           cbn [records_replayed] in Hle. split; [|lia].
           destruct Hext as (E1 & E2 & E3 & E4 & E5 & E6).
           cbn [replayed reader_state pages asr records_replayed] in *.
           unfold loop_extends. repeat split.
           ++ rewrite E1. cbn [rev]. rewrite <- app_assoc. reflexivity.
           ++ cbn [length read_records]. rewrite Hread, <- E2. reflexivity.
           ++ exact E3.
           ++ cbn [length]. rewrite Nat.iter_succ_r. exact E4.
           ++ cbn [length]. lia.
           ++ destruct E6 as [[_ E6]|E6]; [left; split; [discriminate|lia]|].
              right. exact E6.
      * exists st, []. split; [reflexivity|]. split; [|lia].
        unfold loop_extends. cbn. rewrite Z.add_0_r. repeat split. auto.
    + exists st, []. split; [reflexivity|]. split; [|lia].
      unfold loop_extends. cbn. rewrite Z.add_0_r. repeat split. auto.
Qed.

(** The whole call: defined, and an extension of its initial state. *)
Lemma ApplyXlogUntil_spec {R Rec P : Type} (x : XLogReader R Rec P)
  (lsn : Z) (reader : R) (p : P) (s : ASRState) :
  exists (st : replay_state R Rec P) (new : list Rec),
    ApplyXlogUntil x lsn reader p s = Some st /\
    loop_extends x lsn (ASR_GetCurrentBudget s)
      (mkReplayState reader p s 0 []) st new /\
    records_replayed st <= Z.max 1 (ASR_GetCurrentBudget s).
Proof.
  unfold ApplyXlogUntil. cbv zeta.
  destruct (ApplyXlogUntil_loop_spec x lsn (ASR_GetCurrentBudget s)
              (Z.to_nat (ASR_GetCurrentBudget s))
              (mkReplayState reader p s 0 []))
    as (st & new & Hrun & Hext & Hle).
  { cbn [records_replayed]. lia. }
  exists st, new. split; [exact Hrun|]. split; [exact Hext|].
  cbn [records_replayed] in Hle. lia.
Qed.

Lemma iter_replay_task_counter (n : nat) (s : ASRState) :
  uint64_add
    (replay_tasks_count
       (asr_metrics (Nat.iter n (ASR_RecordReplayTask 1) s))) 0 =
  uint64_add (replay_tasks_count (asr_metrics s))
    (if enable_adaptive_sr (asr_config s) then Z.of_nat n else 0).
Proof.
  induction n as [|n IH].
  - cbn [Nat.iter nat_rect]. destruct (enable_adaptive_sr _); reflexivity.
  - change (Nat.iter (S n) (ASR_RecordReplayTask 1) s)
      with (ASR_RecordReplayTask 1 (Nat.iter n (ASR_RecordReplayTask 1) s)).
    destruct (ingest_frame_iter _ n (ASR_RecordReplayTask_frame 1) s)
      as [Hc _].
    unfold ASR_RecordReplayTask at 1. rewrite Hc.
    destruct (enable_adaptive_sr (asr_config s)) eqn:Hon.
    + cbn [negb orb Z.leb Z.compare].
      change (replay_tasks_count
                (asr_metrics
                   (set_asr_metrics
                      (set_replay_tasks_count ?v ?m) ?t))) with v.
      cbn [asr_metrics set_asr_metrics replay_tasks_count
           set_replay_tasks_count].
      rewrite uint64_add_mod_r, uint64_add_assoc.
      rewrite <- (uint64_add_assoc _ 0 1), IH, uint64_add_assoc.
      f_equal. lia.
    + cbn [negb orb]. exact IH.
Qed.

(** X21.  [ApplyXlogUntil] always returns, after replaying at most
    [max 1 budget] records, where [budget] is the published budget read
    at entry; it replays at least one record when one is available below
    [lsn], also with a budget of zero or less.  Each replayed record is
    reported by one [ASR_RecordReplayTask(1)], so that, modulo 2^64, the
    task counter grows by the number of replayed records when enabled and
    not at all when disabled; the published budget and the snapshot are
    not touched. *)
Theorem replay_loop_respects_budget {R Rec P : Type}
  (x : XLogReader R Rec P) (lsn : Z) (reader : R) (p : P) (s : ASRState) :
  exists st : replay_state R Rec P,
    ApplyXlogUntil x lsn reader p s = Some st /\
    records_replayed st = Z.of_nat (length (replayed st)) /\
    records_replayed st <= Z.max 1 (ASR_GetCurrentBudget s) /\
    (EndRecPtr x reader < lsn -> XLogReadRecord x reader <> None ->
     1 <= records_replayed st) /\
    asr st = Nat.iter (length (replayed st)) (ASR_RecordReplayTask 1) s /\
    (replay_tasks_count (asr_metrics (asr st))) mod UINT64_MODULUS =
      (replay_tasks_count (asr_metrics s) +
       (if enable_adaptive_sr (asr_config s)
        then records_replayed st else 0)) mod UINT64_MODULUS /\
    ASR_GetCurrentBudget (asr st) = ASR_GetCurrentBudget s /\
    ASR_ReadMetrics (asr st) = ASR_ReadMetrics s.
Proof.
  destruct (ApplyXlogUntil_spec x lsn reader p s)
    as (st & new & Hrun & Hext & Hle).
  destruct Hext as (E1 & E2 & E3 & E4 & E5 & E6).
  cbn [replayed reader_state pages asr records_replayed] in *.
  rewrite app_nil_r in E1.
  assert (Hlen : length (replayed st) = length new).
  { rewrite E1. apply length_rev. }
  exists st. split; [exact Hrun|].
  rewrite Hlen. split; [lia|]. split; [exact Hle|]. split.
  - intros Hlt Hsome.
    destruct new as [|r new]; [|cbn [length] in E5; lia].
    cbn [length read_records] in E2. injection E2 as E2.
    rewrite E2 in E6.
    destruct E6 as [[E6 _]|[E6|E6]]; [congruence|lia|contradiction].
  - split; [exact E4|].
    destruct (ingest_frame_iter _ (length new)
                (ASR_RecordReplayTask_frame 1) s) as [Hc Hf].
    rewrite <- E4 in Hc, Hf.
    split.
    + pose proof (iter_replay_task_counter (length new) s) as Hcnt.
      rewrite <- E4 in Hcnt. unfold uint64_add in Hcnt.
      rewrite Z.add_0_r in Hcnt. rewrite Hcnt.
      destruct (enable_adaptive_sr (asr_config s)); f_equal; lia.
    + split.
      * apply controller_fields_budget. exact Hf.
      * apply controller_fields_snapshot. exact Hf.
Qed.

Lemma replay_loop_respects_budget_witness :
  exists st : replay_state (Z * list Z) Z Z,
    ApplyXlogUntil list_reader 100 (0, [10; 20; 30]) 0
      (ASR_SetBudget 2 asr_enabled) = Some st /\
    records_replayed st <= Z.max 1 2.
Proof.
  destruct (replay_loop_respects_budget list_reader 100 (0, [10; 20; 30]) 0
              (ASR_SetBudget 2 asr_enabled)) as (st & H1 & _ & H3 & _).
  exists st. split; [exact H1|exact H3].
Defined.

(** X22.  [ApplyXlogUntil] replays the records in the order the reader
    yields them, without skipping any: the replayed records are the
    first records of the stream, the reader is left just after them, and
    the server state is the result of the redo calls in that order.  It
    stops only because the budget is reached, the reader is at or past
    [lsn], or the reader has no record. *)
Theorem replay_loop_replays_a_prefix_in_order {R Rec P : Type}
  (x : XLogReader R Rec P) (lsn : Z) (reader : R) (p : P) (s : ASRState) :
  exists (st : replay_state R Rec P) (new : list Rec),
    ApplyXlogUntil x lsn reader p s = Some st /\
    replayed st = rev new /\
    (new, reader_state st) = read_records x (length new) reader /\
    pages st = fold_left (fun p r => rm_redo x r p) new p /\
    ((new <> [] /\ ASR_GetCurrentBudget s <= Z.of_nat (length new)) \/
     lsn <= EndRecPtr x (reader_state st) \/
     XLogReadRecord x (reader_state st) = None).
Proof.
  destruct (ApplyXlogUntil_spec x lsn reader p s)
    as (st & new & Hrun & Hext & Hle).
  destruct Hext as (E1 & E2 & E3 & E4 & E5 & E6).
  cbn [replayed reader_state pages asr records_replayed] in *.
  rewrite app_nil_r in E1.
  exists st, new. split; [exact Hrun|]. split; [exact E1|].
  split; [exact E2|]. split; [exact E3|].
  destruct E6 as [[E6 E7]|E6]; [left; split; [exact E6|lia]|right; exact E6].
Qed.

(** The loop on a stream of three records with a budget of two: the first
    two records are replayed, in order, and counted. *)
Example replay_two_of_three :
  option_map
    (fun st => (rev (replayed st), reader_state st, pages st,
                records_replayed st,
                replay_tasks_count (asr_metrics (asr st))))
    (ApplyXlogUntil list_reader 100 (0, [10; 20; 30]) 0
       (ASR_SetBudget 2 asr_enabled))
  = Some ([10; 20], (20, [30]), 30, 2, 2).
Proof. vm_compute. reflexivity. Qed.
